(** * Culinary Companion: recipes, pantry inventory and the shopping list

    A shallow embedding of the state-transforming code of the application:
    [checkCookability] (RecipeCard), [addItem] (InventoryManager),
    [removeCategory] (SettingsManager), [loadFromLocalStorage] (storage),
    the start-up seeding of [App] and the [shoppingList] memo (ShoppingList).

    Conventions of the embedding.
    - A JavaScript [number] is an integer of [Z]; fractional amounts, NaN and
      rounding are outside the model.
    - A JavaScript string is a [string] of 8-bit characters and
      [toLowerCase] / [trim] act on the ASCII range.
    - An optional field ([category?], [untrackedAmount?], ...) is an [option];
      [None] is JavaScript's [undefined].
    - [forEach] with [push] is a left fold that appends at the end. *)

From Stdlib Require Import ZArith List Ascii String Bool Lia.
From stdpp Require Import base option list strings gmap.

Local Open Scope string_scope.
Local Open Scope list_scope.

(** ** Strings *)

Definition is_upper (c : ascii) : bool :=
  (65 <=? nat_of_ascii c)%nat && (nat_of_ascii c <=? 90)%nat.

Definition lower_ascii (c : ascii) : ascii :=
  if is_upper c then ascii_of_nat (nat_of_ascii c + 32) else c.

(** [String.prototype.toLowerCase] *)
Fixpoint toLowerCase (s : string) : string :=
  match s with
  | EmptyString => EmptyString
  | String c r => String (lower_ascii c) (toLowerCase r)
  end.

Fixpoint has_upper (s : string) : bool :=
  match s with
  | EmptyString => false
  | String c r => is_upper c || has_upper r
  end.

(** White space removed by [String.prototype.trim]: TAB, LF, VT, FF, CR and
    the space. *)
Definition is_space (c : ascii) : bool :=
  let n := nat_of_ascii c in
  ((9 <=? n)%nat && (n <=? 13)%nat) || (n =? 32)%nat.

(** [!s.trim()]: the trimmed string is empty exactly when every character is
    white space. *)
Fixpoint is_blank (s : string) : bool :=
  match s with
  | EmptyString => true
  | String c r => is_space c && is_blank r
  end.

(** [a.toLowerCase() === b.toLowerCase()] *)
Definition same_name (a b : string) : bool :=
  String.eqb (toLowerCase a) (toLowerCase b).

(** [s || d] on a string: the empty string is falsy. *)
Definition str_or (s d : string) : string :=
  if String.eqb s "" then d else s.

(** [s || d] on an optional string. *)
Definition opt_str_or (s : option string) (d : string) : string :=
  match s with
  | Some v => str_or v d
  | None => d
  end.

(** Truthiness of an optional boolean. *)
Definition truthy (b : option bool) : bool :=
  match b with
  | Some true => true
  | _ => false
  end.

(** ** Data model (types.ts) *)

Inductive StockStatus := InStock | LowStock | OutOfStock.

Definition StockStatus_eqb (a b : StockStatus) : bool :=
  match a, b with
  | InStock, InStock | LowStock, LowStock | OutOfStock, OutOfStock => true
  | _, _ => false
  end.

(** [x.stockStatus === s] for an optional status. *)
Definition status_is (x : option StockStatus) (s : StockStatus) : bool :=
  match x with
  | Some y => StockStatus_eqb y s
  | None => false
  end.

Module Ingredient.
Record t := mk {
  id : string;
  name : string;
  amount : Z;
  unit : string;
  category : option string;
  untrackedAmount : option bool;
  stockStatus : option StockStatus
}.
End Ingredient.

Module RecipeIngredient.
(** [interface RecipeIngredient extends Ingredient] *)
Record t := mk {
  base : Ingredient.t;
  optional : option bool
}.
End RecipeIngredient.

Coercion RecipeIngredient.base : RecipeIngredient.t >-> Ingredient.t.

Module Recipe.
Record t := mk {
  id : string;
  name : string;
  description : string;
  ingredients : list RecipeIngredient.t;
  instructions : string;
  tags : list string;
  prepTime : option Z
}.
End Recipe.

Module AppState.
Record t := mk {
  recipes : list Recipe.t;
  inventory : list Ingredient.t;
  customTags : list string;
  categories : list string
}.
End AppState.

(** [Array.prototype.find] *)
Fixpoint find {A} (p : A -> bool) (l : list A) : option A :=
  match l with
  | [] => None
  | x :: r => if p x then Some x else find p r
  end.

(** [Array.prototype.findIndex]; [None] is the result [-1]. *)
Fixpoint findIndex {A} (p : A -> bool) (l : list A) : option nat :=
  match l with
  | [] => None
  | x :: r => if p x then Some 0%nat else option_map S (findIndex p r)
  end.

(** ** Shopping list (ShoppingList.tsx) *)

Module Plan.
(** An element of [selectedRecipes]. *)
Record t := mk { recipeId : string; count : Z }.
End Plan.

Module Needed.
(** A value of the [needed] record. *)
Record t := mk { amount : Z; unit : string; category : string }.
End Needed.

Module Item.
(** An element of [finalItems]. *)
Record t := mk { name : string; amount : Z; unit : string; category : string }.
End Item.

(** The [needed] object, as its own properties in the order they were
    created.  [Object.entries] lists them in this order, except that keys
    which are decimal array indices come first; that permutation is not
    modelled, and the general statements below speak of membership only. *)
Definition needed_t := list (string * Needed.t).

Fixpoint needed_get (n : needed_t) (k : string) : option Needed.t :=
  match n with
  | [] => None
  | (k', d) :: r => if String.eqb k' k then Some d else needed_get r k
  end.

(** [needed[key].amount += delta] on an own property. *)
Fixpoint needed_add (n : needed_t) (k : string) (delta : Z) : needed_t :=
  match n with
  | [] => []
  | (k', d) :: r =>
      if String.eqb k' k
      then (k', Needed.mk (Needed.amount d + delta) (Needed.unit d) (Needed.category d)) :: r
      else (k', d) :: needed_add r k delta
  end.

(** The lower-case keys that an object literal inherits from
    [Object.prototype]: for them [needed[key]] is a truthy inherited object,
    so no own property is created and [+=] lands on the inherited object. *)
Definition inherited_key (k : string) : bool :=
  String.eqb k "constructor" || String.eqb k "__proto__".

(** The body of [recipe.ingredients.forEach]. *)
Definition add_ingredient (count : Z) (needed : needed_t) (ing : RecipeIngredient.t)
  : needed_t :=
  let key := toLowerCase (Ingredient.name ing) in
  if inherited_key key then needed
  else
    let needed1 :=
      match needed_get needed key with
      | Some _ => needed
      | None =>
          needed ++ [(key, Needed.mk 0 (Ingredient.unit ing)
                             (opt_str_or (Ingredient.category ing) "Other"))]
      end in
    needed_add needed1 key (Ingredient.amount ing * count).

(** The body of [selectedRecipes.forEach]. *)
Definition add_plan (recipes : list Recipe.t) (needed : needed_t) (plan : Plan.t)
  : needed_t :=
  match find (fun r => String.eqb (Recipe.id r) (Plan.recipeId plan)) recipes with
  | None => needed
  | Some recipe =>
      fold_left (add_ingredient (Plan.count plan)) (Recipe.ingredients recipe) needed
  end.

Definition aggregate (selectedRecipes : list Plan.t) (recipes : list Recipe.t)
  : needed_t :=
  fold_left (add_plan recipes) selectedRecipes [].

(** [inventory.find(i => i.name.toLowerCase() === name)] *)
Definition in_stock (inventory : list Ingredient.t) (name : string)
  : option Ingredient.t :=
  find (fun i => String.eqb (toLowerCase (Ingredient.name i)) name) inventory.

(** [inStock?.untrackedAmount && inStock.stockStatus !== 'out-of-stock'] *)
Definition assumed_enough (inStock : option Ingredient.t) : bool :=
  match inStock with
  | Some i =>
      truthy (Ingredient.untrackedAmount i)
      && negb (status_is (Ingredient.stockStatus i) OutOfStock)
  | None => false
  end.

(** [inStock ? inStock.amount : 0] *)
Definition stock_amount (inStock : option Ingredient.t) : Z :=
  match inStock with
  | Some i => Ingredient.amount i
  | None => 0
  end.

(** The body of [Object.entries(needed).forEach]. *)
Definition net_entry (inventory : list Ingredient.t) (finalItems : list Item.t)
    (e : string * Needed.t) : list Item.t :=
  let '(name, data) := e in
  let inStock := in_stock inventory name in
  if assumed_enough inStock then finalItems
  else
    let finalAmount := Z.max 0 (Needed.amount data - stock_amount inStock) in
    if (0 <? finalAmount)%Z
    then finalItems ++ [Item.mk name finalAmount (Needed.unit data) (Needed.category data)]
    else finalItems.

(** The demand-netting stage: [finalItems] after the loop over [needed]. *)
Definition netting (needed : needed_t) (inventory : list Ingredient.t) : list Item.t :=
  fold_left (net_entry inventory) needed [].

(** The entry pushed for an inventory item by the replenishment loop. *)
Definition replenish_item (item : Ingredient.t) : Item.t :=
  Item.mk (Ingredient.name item) 1
          (str_or (Ingredient.unit item) "unit")
          (opt_str_or (Ingredient.category item) "Other").

(** The condition under which the replenishment loop looks at an item. *)
Definition wants_replenish (replenishItems : gset string) (item : Ingredient.t) : bool :=
  status_is (Ingredient.stockStatus item) OutOfStock
  || (status_is (Ingredient.stockStatus item) LowStock
      && bool_decide (Ingredient.id item ∈ replenishItems)).

(** [finalItems.find(i => i.name.toLowerCase() === item.name.toLowerCase())] *)
Definition listed (finalItems : list Item.t) (name : string) : bool :=
  existsb (fun i => same_name (Item.name i) name) finalItems.

(** The body of [inventory.forEach] in the replenishment stage. *)
Definition replenish_step (replenishItems : gset string) (finalItems : list Item.t)
    (item : Ingredient.t) : list Item.t :=
  if status_is (Ingredient.stockStatus item) OutOfStock then
    if listed finalItems (Ingredient.name item) then finalItems
    else finalItems ++ [replenish_item item]
  else if status_is (Ingredient.stockStatus item) LowStock
          && bool_decide (Ingredient.id item ∈ replenishItems) then
    if listed finalItems (Ingredient.name item) then finalItems
    else finalItems ++ [replenish_item item]
  else finalItems.

Definition replenish (replenishItems : gset string) (inventory : list Ingredient.t)
    (finalItems : list Item.t) : list Item.t :=
  fold_left (replenish_step replenishItems) inventory finalItems.

(** The [shoppingList] memo. *)
Definition shoppingList (selectedRecipes : list Plan.t) (recipes : list Recipe.t)
    (inventory : list Ingredient.t) (replenishItems : gset string) : list Item.t :=
  replenish replenishItems inventory
            (netting (aggregate selectedRecipes recipes) inventory).

(** ** Cookability (RecipeCard.tsx) *)

(** [!inStock || inStock.amount < req.amount] *)
Definition short_of (inStock : option Ingredient.t) (req : Ingredient.t) : bool :=
  match inStock with
  | None => true
  | Some i => (Ingredient.amount i <? Ingredient.amount req)%Z
  end.

(** The body of [recipe.ingredients.forEach] in [checkCookability]. *)
Definition check_step (inventory : list Ingredient.t) (missing : list string)
    (req : RecipeIngredient.t) : list string :=
  let inStock :=
    find (fun i => same_name (Ingredient.name i) (Ingredient.name req)) inventory in
  if short_of inStock req then
    if truthy (RecipeIngredient.optional req) then missing
    else missing ++ [Ingredient.name req]
  else missing.

Definition checkCookability (recipe : Recipe.t) (inventory : list Ingredient.t)
  : list string :=
  fold_left (check_step inventory) (Recipe.ingredients recipe) [].

(** [missingIngredients.length === 0] *)
Definition canCook (recipe : Recipe.t) (inventory : list Ingredient.t) : bool :=
  Nat.eqb (length (checkCookability recipe inventory)) 0.

(** ** Inventory add / merge (InventoryManager.tsx) *)

Module NewItem.
(** The [newItem] form state. *)
Record t := mk {
  name : string;
  amount : Z;
  unit : string;
  category : string;
  untrackedAmount : bool;
  stockStatus : StockStatus
}.
End NewItem.

(** The assignments made to [existing] when a name match is found. *)
Definition merge_into (newItem : NewItem.t) (existing : Ingredient.t) : Ingredient.t :=
  if NewItem.untrackedAmount newItem then
    Ingredient.mk (Ingredient.id existing) (Ingredient.name existing)
      (Ingredient.amount existing) (Ingredient.unit existing)
      (Ingredient.category existing) (Some true) (Some (NewItem.stockStatus newItem))
  else if truthy (Ingredient.untrackedAmount existing) then
    Ingredient.mk (Ingredient.id existing) (Ingredient.name existing)
      (NewItem.amount newItem) (Ingredient.unit existing)
      (Ingredient.category existing) (Some false) (Ingredient.stockStatus existing)
  else
    Ingredient.mk (Ingredient.id existing) (Ingredient.name existing)
      (Ingredient.amount existing + NewItem.amount newItem) (Ingredient.unit existing)
      (Ingredient.category existing) (Ingredient.untrackedAmount existing)
      (Ingredient.stockStatus existing).

(** [{ ...newItem, id: uuidv4() }] *)
Definition fresh_item (uuid : string) (newItem : NewItem.t) : Ingredient.t :=
  Ingredient.mk uuid (NewItem.name newItem) (NewItem.amount newItem)
    (NewItem.unit newItem) (Some (NewItem.category newItem))
    (Some (NewItem.untrackedAmount newItem)) (Some (NewItem.stockStatus newItem)).

(** [addItem]: the list handed to [onUpdate], or [None] when the handler
    returns before calling it.  [uuid] is the value [uuidv4()] would return.
    The handler assigns to the matched object in place, and that object is
    shared by [inventory] and its copy [updated]; the model gives the
    contents of [updated]. *)
Definition addItem (uuid : string) (inventory : list Ingredient.t) (newItem : NewItem.t)
  : option (list Ingredient.t) :=
  if is_blank (NewItem.name newItem) then None
  else
    match findIndex (fun i => same_name (Ingredient.name i) (NewItem.name newItem))
                    inventory with
    | Some existingIndex => Some (alter (merge_into newItem) existingIndex inventory)
    | None => Some (inventory ++ [fresh_item uuid newItem])
    end.

(** The inventory held by the application after the submit handler ran. *)
Definition inventory_after (uuid : string) (inventory : list Ingredient.t)
    (newItem : NewItem.t) : list Ingredient.t :=
  match addItem uuid inventory newItem with
  | Some updated => updated
  | None => inventory
  end.

(** ** Category deletion (SettingsManager.tsx) *)

(** [i.category === category] *)
Definition has_category (category : string) (i : Ingredient.t) : bool :=
  match Ingredient.category i with
  | Some c => String.eqb c category
  | None => false
  end.

(** [i.category === category ? { ...i, category: 'Other' } : i] *)
Definition reassign (category : string) (i : Ingredient.t) : Ingredient.t :=
  if has_category category i then
    Ingredient.mk (Ingredient.id i) (Ingredient.name i) (Ingredient.amount i)
      (Ingredient.unit i) (Some "Other") (Ingredient.untrackedAmount i)
      (Ingredient.stockStatus i)
  else i.

Definition reassign_req (category : string) (i : RecipeIngredient.t)
  : RecipeIngredient.t :=
  RecipeIngredient.mk (reassign category i) (RecipeIngredient.optional i).

Definition reassign_recipe (category : string) (r : Recipe.t) : Recipe.t :=
  Recipe.mk (Recipe.id r) (Recipe.name r) (Recipe.description r)
    (map (reassign_req category) (Recipe.ingredients r))
    (Recipe.instructions r) (Recipe.tags r) (Recipe.prepTime r).

(** What a settings handler does: warn and leave the state alone, or hand a
    new state to [onUpdateState]. *)
Inductive outcome :=
| Alert (message : string)
| Update (newState : AppState.t).

Definition removeCategory (category : string) (state : AppState.t) : outcome :=
  if (length (AppState.categories state) <=? 1)%nat then
    Alert "You must have at least one category."
  else
    Update (AppState.mk
      (map (reassign_recipe category) (AppState.recipes state))
      (map (reassign category) (AppState.inventory state))
      (AppState.customTags state)
      (List.filter (fun c => negb (String.eqb c category)) (AppState.categories state))).

(** The state held by the application after the handler ran. *)
Definition state_after (o : outcome) (state : AppState.t) : AppState.t :=
  match o with
  | Alert _ => state
  | Update s => s
  end.

(** ** Persistence loader (storage.ts) *)

Set Warnings "-register-all".

(** A value produced by [JSON.parse]. *)
Inductive json :=
| JNull
| JBool (b : bool)
| JNum (n : Z)
| JStr (s : string)
| JArr (items : list json)
| JObj (fields : list (string * json)).

(** The outcome of evaluating JavaScript code that may throw. *)
Inductive completion (A : Type) :=
| Normal (value : A)
| Throw (error : string).

Arguments Normal {A} value.
Arguments Throw {A} error.

#[global] Instance completion_bind : MBind completion :=
  fun A B k c =>
    match c with
    | Normal a => k a
    | Throw e => Throw e
    end.

(** [try { body } catch (e) { handler }] *)
Definition try_catch {A} (body : completion A) (handler : string -> completion A)
  : completion A :=
  match body with
  | Normal a => Normal a
  | Throw e => handler e
  end.

(** Truthiness of a parsed value. *)
Definition js_truthy (v : json) : bool :=
  match v with
  | JNull => false
  | JBool b => b
  | JNum n => negb (n =? 0)%Z
  | JStr s => negb (String.eqb s "")
  | JArr _ | JObj _ => true
  end.

(** Own property of a parsed object; a key written twice keeps its last
    value. *)
Fixpoint own_property (fields : list (string * json)) (key : string) : option json :=
  match fields with
  | [] => None
  | (k, v) :: r =>
      match own_property r key with
      | Some w => Some w
      | None => if String.eqb k key then Some v else None
      end
  end.

(** The four property names read by the loader.  None of them is defined on
    a number, a boolean, a string or an array, nor inherited by an object. *)
Inductive field := Recipes | Inventory | CustomTags | Categories.

Definition field_name (f : field) : string :=
  match f with
  | Recipes => "recipes"
  | Inventory => "inventory"
  | CustomTags => "customTags"
  | Categories => "categories"
  end.

(** [parsed.f]: reading a property of [null] throws a TypeError, any other
    value answers, with [None] for [undefined]. *)
Definition get_field (parsed : json) (f : field) : completion (option json) :=
  match parsed with
  | JNull => Throw "TypeError"
  | JObj fields => Normal (own_property fields (field_name f))
  | JBool _ | JNum _ | JStr _ | JArr _ => Normal None
  end.

(** [v || d] *)
Definition js_or (v : option json) (d : json) : json :=
  match v with
  | Some w => if js_truthy w then w else d
  | None => d
  end.

Module Loaded.
(** The object returned by the loader.  Types are erased at run time, so
    each field holds whatever [JSON.parse] delivered. *)
Record t := mk {
  recipes : json;
  inventory : json;
  customTags : json;
  categories : json
}.
End Loaded.

Definition DEFAULT_TAGS : list string :=
  ["Breakfast"; "Lunch"; "Dinner"; "Snack"; "Dessert"; "Vegetarian"; "Vegan"; "Quick"].

Definition DEFAULT_CATEGORIES : list string :=
  ["Produce"; "Dairy"; "Meat"; "Bakery"; "Frozen"; "Pantry"; "Beverages";
   "Household"; "Other"].

Definition strings (l : list string) : json := JArr (map JStr l).

(** The default of each field. *)
Definition default_of (f : field) : json :=
  match f with
  | Recipes => JArr []
  | Inventory => JArr []
  | CustomTags => strings DEFAULT_TAGS
  | Categories => strings DEFAULT_CATEGORIES
  end.

Definition default_state : Loaded.t :=
  Loaded.mk (default_of Recipes) (default_of Inventory)
            (default_of CustomTags) (default_of Categories).

Definition loaded_field (s : Loaded.t) (f : field) : json :=
  match f with
  | Recipes => Loaded.recipes s
  | Inventory => Loaded.inventory s
  | CustomTags => Loaded.customTags s
  | Categories => Loaded.categories s
  end.

Section Storage.

(** [JSON.parse] is the platform's: it answers a value or throws a
    SyntaxError. *)
Variable JSON_parse : string -> completion json.

(** The [try] block of the loader. *)
Definition load_body (data : string) : completion Loaded.t :=
  parsed ← JSON_parse data;
  recipes ← get_field parsed Recipes;
  inventory ← get_field parsed Inventory;
  customTags ← get_field parsed CustomTags;
  categories ← get_field parsed Categories;
  Normal (Loaded.mk (js_or recipes (default_of Recipes))
                    (js_or inventory (default_of Inventory))
                    (js_or customTags (default_of CustomTags))
                    (js_or categories (default_of Categories))).

(** [loadFromLocalStorage], given the result of
    [localStorage.getItem(STORAGE_KEY)] ([None] is [null]). *)
Definition loadFromLocalStorage (data : option string) : completion Loaded.t :=
  match data with
  | None => Normal default_state
  | Some d =>
      if String.eqb d "" then Normal default_state
      else try_catch (load_body d) (fun _ => Normal default_state)
  end.

End Storage.

(** ** Start-up seeding (App.tsx) *)

Definition ingredient (id name : string) (amount : Z) (unit category : string)
  : Ingredient.t :=
  Ingredient.mk id name amount unit (Some category) None None.

Definition required (id name : string) (amount : Z) (unit category : string)
  : RecipeIngredient.t :=
  RecipeIngredient.mk (ingredient id name amount unit category) None.

Definition margherita : Recipe.t :=
  Recipe.mk "1" "Classic Margherita Pizza"
    "A simple yet delicious Italian classic with fresh basil and mozzarella."
    [ required "i1" "Pizza Dough" 1 "pcs" "Bakery";
      required "i2" "Tomato Sauce" 100 "ml" "Pantry";
      required "i3" "Mozzarella" 150 "g" "Dairy";
      required "i4" "Fresh Basil" 5 "leaves" "Produce" ]
    "1. Preheat oven to 250°C.
2. Roll out dough.
3. Spread sauce.
4. Add cheese.
5. Bake for 10-12 mins.
6. Add fresh basil."
    ["Dinner"; "Vegetarian"] (Some 20%Z).

Definition avocado_toast : Recipe.t :=
  Recipe.mk "2" "Avocado Toast"
    "The perfect healthy breakfast or snack."
    [ required "i5" "Sourdough Bread" 2 "slices" "Bakery";
      required "i6" "Avocado" 1 "pcs" "Produce";
      required "i7" "Red Pepper Flakes" 1 "tsp" "Pantry" ]
    "1. Toast the bread.
2. Mash avocado with salt and pepper.
3. Spread on toast.
4. Sprinkle red pepper flakes."
    ["Breakfast"; "Quick"; "Vegan"] (Some 5%Z).

Definition INITIAL_DATA : AppState.t :=
  AppState.mk
    [margherita; avocado_toast]
    [ ingredient "inv1" "Sourdough Bread" 4 "slices" "Bakery";
      ingredient "inv2" "Avocado" 2 "pcs" "Produce" ]
    DEFAULT_TAGS
    DEFAULT_CATEGORIES.

(** The initialiser of [useState<AppState>] in [App], given what the loader
    returned. *)
Definition initial_state (saved : AppState.t) : AppState.t :=
  if (0 <? length (AppState.recipes saved))%nat then saved else INITIAL_DATA.

(** ** Aggregated demand, as the specification words it

    The total demand of a key is the sum, over the planned recipes and
    their ingredients whose lower-cased name is the key, of the amount times
    the multiplier of the plan entry. *)

Definition ingredient_demand (key : string) (count : Z) (ing : RecipeIngredient.t) : Z :=
  if String.eqb (toLowerCase (Ingredient.name ing)) key
  then (Ingredient.amount ing * count)%Z else 0%Z.

Definition recipe_demand (key : string) (count : Z) (ings : list RecipeIngredient.t) : Z :=
  fold_right (fun ing acc => (ingredient_demand key count ing + acc)%Z) 0%Z ings.

Definition plan_demand (recipes : list Recipe.t) (key : string) (plan : Plan.t) : Z :=
  match find (fun r => String.eqb (Recipe.id r) (Plan.recipeId plan)) recipes with
  | Some recipe => recipe_demand key (Plan.count plan) (Recipe.ingredients recipe)
  | None => 0%Z
  end.

Definition demand (selectedRecipes : list Plan.t) (recipes : list Recipe.t)
    (key : string) : Z :=
  fold_right (fun plan acc => (plan_demand recipes key plan + acc)%Z) 0%Z selectedRecipes.

(** An ingredient of the recipe selected by some entry of the plan. *)
Definition planned (selectedRecipes : list Plan.t) (recipes : list Recipe.t)
    (ing : RecipeIngredient.t) : Prop :=
  exists plan recipe,
    In plan selectedRecipes
    /\ find (fun r => String.eqb (Recipe.id r) (Plan.recipeId plan)) recipes = Some recipe
    /\ In ing (Recipe.ingredients recipe).

(** The amount held under a key of [needed], zero when the key is absent. *)
Definition amount_of (o : option Needed.t) : Z :=
  match o with
  | Some d => Needed.amount d
  | None => 0%Z
  end.

(** ** Missing ingredients, as the specification words them

    A recipe ingredient is missing when it is not optional and either no
    inventory item matches its name case-insensitively or the first matching
    item holds strictly less than the required amount. *)

Definition missing_ingredient (inventory : list Ingredient.t)
    (req : RecipeIngredient.t) : bool :=
  negb (truthy (RecipeIngredient.optional req))
  && match find (fun i => same_name (Ingredient.name i) (Ingredient.name req))
                inventory with
     | None => true
     | Some i => (Ingredient.amount i <? Ingredient.amount req)%Z
     end.

(** ** Category reassignment, as the specification words it

    [i'] is [i] with its category moved to the fallback when it was the
    deleted one, and every other field unchanged. *)

Definition moved (category : string) (i i' : Ingredient.t) : Prop :=
  Ingredient.id i' = Ingredient.id i
  /\ Ingredient.name i' = Ingredient.name i
  /\ Ingredient.amount i' = Ingredient.amount i
  /\ Ingredient.unit i' = Ingredient.unit i
  /\ Ingredient.untrackedAmount i' = Ingredient.untrackedAmount i
  /\ Ingredient.stockStatus i' = Ingredient.stockStatus i
  /\ Ingredient.category i' =
       (if decide (Ingredient.category i = Some category)
        then Some "Other" else Ingredient.category i).

Definition moved_recipe (category : string) (r r' : Recipe.t) : Prop :=
  Recipe.id r' = Recipe.id r
  /\ Recipe.name r' = Recipe.name r
  /\ Recipe.description r' = Recipe.description r
  /\ Recipe.instructions r' = Recipe.instructions r
  /\ Recipe.tags r' = Recipe.tags r
  /\ Recipe.prepTime r' = Recipe.prepTime r
  /\ Forall2 (fun q q' : RecipeIngredient.t =>
                RecipeIngredient.optional q' = RecipeIngredient.optional q
                /\ moved category q q')
             (Recipe.ingredients r) (Recipe.ingredients r').

(** ** Meal plan, check marks and pages (ShoppingList.tsx) *)

(** [addToPlan] *)
Definition addToPlan (recipeId : string) (selectedRecipes : list Plan.t) : list Plan.t :=
  match find (fun r => String.eqb (Plan.recipeId r) recipeId) selectedRecipes with
  | Some _ =>
      map (fun r => if String.eqb (Plan.recipeId r) recipeId
                    then Plan.mk (Plan.recipeId r) (Plan.count r + 1) else r)
          selectedRecipes
  | None => selectedRecipes ++ [Plan.mk recipeId 1]
  end.

(** [updateCount] *)
Definition updateCount (recipeId : string) (delta : Z) (selectedRecipes : list Plan.t)
  : list Plan.t :=
  List.filter (fun r => (0 <? Plan.count r)%Z)
    (map (fun r => if String.eqb (Plan.recipeId r) recipeId
                   then Plan.mk (Plan.recipeId r) (Z.max 0 (Plan.count r + delta)) else r)
         selectedRecipes).

(** [toggleCheck] and [toggleReplenish]: a copy of the set with the key
    deleted when present and added otherwise. *)
Definition toggle (key : string) (s : gset string) : gset string :=
  if bool_decide (key ∈ s) then s ∖ {[key]} else s ∪ {[key]}.

Definition toggleCheck (name : string) (checkedItems : gset string) : gset string :=
  toggle name checkedItems.

Definition toggleReplenish (id : string) (replenishItems : gset string) : gset string :=
  toggle id replenishItems.

Definition ITEMS_PER_PAGE : nat := 10.

(** [Math.ceil(filteredRecipes.length / ITEMS_PER_PAGE)] *)
Definition totalPages {A} (filteredRecipes : list A) : nat :=
  (length filteredRecipes + (ITEMS_PER_PAGE - 1)) / ITEMS_PER_PAGE.

(** [Array.prototype.slice(start, end)]: a negative index counts from the
    end, and both are clamped to the array. *)
Definition slice {A} (start stop : Z) (l : list A) : list A :=
  let len := Z.of_nat (length l) in
  let clamp i := if (i <? 0)%Z then Z.max (len + i) 0 else Z.min i len in
  let from := clamp start in
  let to := clamp stop in
  firstn (Z.to_nat (to - from)) (skipn (Z.to_nat from) l).

(** [paginatedRecipes] *)
Definition paginatedRecipes {A} (filteredRecipes : list A) (currentPage : Z) : list A :=
  let start := (currentPage * Z.of_nat ITEMS_PER_PAGE)%Z in
  slice start (start + Z.of_nat ITEMS_PER_PAGE) filteredRecipes.

(** The two page buttons, shown when there is more than one page. *)
Definition previousPage (p : Z) : Z := Z.max 0 (p - 1).

Definition nextPage (pages : nat) (p : Z) : Z := Z.min (Z.of_nat pages - 1) (p + 1).

(** [String.prototype.includes] *)
Fixpoint includes (s sub : string) : bool :=
  String.prefix sub s
  || match s with
     | EmptyString => false
     | String _ r => includes r sub
     end.


(** The groups rendered and copied: for each category of the vocabulary, in
    order, the lines of that category, a category without lines being
    skipped. *)
Definition groups (categories : list string) (shoppingList : list Item.t)
  : list (string * list Item.t) :=
  flat_map (fun category =>
              let items := List.filter (fun i => String.eqb (Item.category i) category)
                                       shoppingList in
              if Nat.eqb (length items) 0 then [] else [(category, items)])
           categories.

(** The lines shown, group after group. *)
Definition displayed (categories : list string) (shoppingList : list Item.t)
  : list Item.t :=
  flat_map snd (groups categories shoppingList).

(** ** Inventory operations (InventoryManager.tsx) *)

Definition removeItem (id : string) (inventory : list Ingredient.t) : list Ingredient.t :=
  List.filter (fun i => negb (String.eqb (Ingredient.id i) id)) inventory.

Definition updateAmount (id : string) (delta : Z) (inventory : list Ingredient.t)
  : list Ingredient.t :=
  map (fun i =>
         if String.eqb (Ingredient.id i) id then
           Ingredient.mk (Ingredient.id i) (Ingredient.name i)
             (Z.max 0 (Ingredient.amount i + delta)) (Ingredient.unit i)
             (Ingredient.category i) (Ingredient.untrackedAmount i)
             (Ingredient.stockStatus i)
         else i)
      inventory.

(** [i.stockStatus || 'in-stock'] *)
Definition status_or_in_stock (s : option StockStatus) : StockStatus :=
  match s with
  | Some v => v
  | None => InStock
  end.

Definition toggleUntracked (id : string) (inventory : list Ingredient.t)
  : list Ingredient.t :=
  map (fun i =>
         if String.eqb (Ingredient.id i) id then
           Ingredient.mk (Ingredient.id i) (Ingredient.name i)
             (Ingredient.amount i) (Ingredient.unit i) (Ingredient.category i)
             (Some (negb (truthy (Ingredient.untrackedAmount i))))
             (Some (status_or_in_stock (Ingredient.stockStatus i)))
         else i)
      inventory.

Definition setStockStatus (id : string) (status : StockStatus)
    (inventory : list Ingredient.t) : list Ingredient.t :=
  map (fun i =>
         if String.eqb (Ingredient.id i) id then
           Ingredient.mk (Ingredient.id i) (Ingredient.name i)
             (Ingredient.amount i) (Ingredient.unit i) (Ingredient.category i)
             (Ingredient.untrackedAmount i) (Some status)
         else i)
      inventory.

Definition updateCategory (id : string) (category : string)
    (inventory : list Ingredient.t) : list Ingredient.t :=
  map (fun i =>
         if String.eqb (Ingredient.id i) id then
           Ingredient.mk (Ingredient.id i) (Ingredient.name i)
             (Ingredient.amount i) (Ingredient.unit i) (Some category)
             (Ingredient.untrackedAmount i) (Ingredient.stockStatus i)
         else i)
      inventory.


(** ** Application handlers (App.tsx) *)

(** The assignment made to [existing] by [addToInventory]. *)
Definition restock (item : Item.t) (existing : Ingredient.t) : Ingredient.t :=
  if truthy (Ingredient.untrackedAmount existing) then
    Ingredient.mk (Ingredient.id existing) (Ingredient.name existing)
      (Ingredient.amount existing) (Ingredient.unit existing)
      (Ingredient.category existing) (Ingredient.untrackedAmount existing)
      (Some InStock)
  else
    Ingredient.mk (Ingredient.id existing) (Ingredient.name existing)
      (Ingredient.amount existing + Item.amount item) (Ingredient.unit existing)
      (Ingredient.category existing) (Ingredient.untrackedAmount existing)
      (Ingredient.stockStatus existing).

(** [addToInventory]: the new inventory, [uuid] being the value [uuidv4()]
    would return.  As in [addItem] the matched object is assigned in place;
    the model gives the contents of [updatedInventory]. *)
Definition addToInventory (uuid : string) (item : Item.t) (inventory : list Ingredient.t)
  : list Ingredient.t :=
  match findIndex (fun i => same_name (Ingredient.name i) (Item.name item)) inventory with
  | Some existingIndex => alter (restock item) existingIndex inventory
  | None =>
      inventory ++ [Ingredient.mk uuid (Item.name item) (Item.amount item)
                      (Item.unit item) (Some (Item.category item))
                      (Some true) (Some InStock)]
  end.

(** [saveRecipe], on the recipe list. *)
Definition saveRecipe (recipe : Recipe.t) (recipes : list Recipe.t) : list Recipe.t :=
  match find (fun r => String.eqb (Recipe.id r) (Recipe.id recipe)) recipes with
  | Some _ =>
      map (fun r => if String.eqb (Recipe.id r) (Recipe.id recipe) then recipe else r)
          recipes
  | None => recipes ++ [recipe]
  end.

(** [deleteRecipe], on the recipe list; [confirmed] is the answer to the
    [confirm] dialog. *)
Definition deleteRecipe (confirmed : bool) (id : string) (recipes : list Recipe.t)
  : list Recipe.t :=
  if confirmed
  then List.filter (fun r => negb (String.eqb (Recipe.id r) id)) recipes
  else recipes.

(** [filteredRecipes] of the recipe view. *)
Definition filteredRecipes (recipes : list Recipe.t) (searchTerm activeTag : string)
  : list Recipe.t :=
  List.filter
    (fun recipe =>
       let matchesSearch :=
         includes (toLowerCase (Recipe.name recipe)) (toLowerCase searchTerm)
         || includes (toLowerCase (Recipe.description recipe)) (toLowerCase searchTerm) in
       let matchesTag :=
         String.eqb activeTag "All"
         || existsb (fun t => String.eqb t activeTag) (Recipe.tags recipe) in
       matchesSearch && matchesTag)
    recipes.

(** ** Settings handlers (SettingsManager.tsx) *)

Fixpoint trimStart (s : string) : string :=
  match s with
  | EmptyString => EmptyString
  | String c r => if is_space c then trimStart r else s
  end.

Fixpoint trimEnd (s : string) : string :=
  match s with
  | EmptyString => EmptyString
  | String c r =>
      match trimEnd r with
      | EmptyString => if is_space c then EmptyString else String c EmptyString
      | r' => String c r'
      end
  end.

(** [String.prototype.trim] *)
Definition trim (s : string) : string := trimEnd (trimStart s).

(** [Array.prototype.includes] on strings. *)
Definition array_includes (l : list string) (x : string) : bool :=
  existsb (fun y => String.eqb y x) l.

(** A handler that either returns early or hands a new state to
    [onUpdateState]; [None] is the early return. *)
Definition addTag (newTag : string) (state : AppState.t) : option AppState.t :=
  if String.eqb (trim newTag) "" || array_includes (AppState.customTags state) (trim newTag)
  then None
  else Some (AppState.mk (AppState.recipes state) (AppState.inventory state)
               (AppState.customTags state ++ [trim newTag])
               (AppState.categories state)).

Definition addCategory (newCategory : string) (state : AppState.t) : option AppState.t :=
  if String.eqb (trim newCategory) ""
     || array_includes (AppState.categories state) (trim newCategory)
  then None
  else Some (AppState.mk (AppState.recipes state) (AppState.inventory state)
               (AppState.customTags state)
               (AppState.categories state ++ [trim newCategory])).

Definition untag (tag : string) (r : Recipe.t) : Recipe.t :=
  Recipe.mk (Recipe.id r) (Recipe.name r) (Recipe.description r)
    (Recipe.ingredients r) (Recipe.instructions r)
    (List.filter (fun t => negb (String.eqb t tag)) (Recipe.tags r))
    (Recipe.prepTime r).

Definition removeTag (tag : string) (state : AppState.t) : AppState.t :=
  AppState.mk (map (untag tag) (AppState.recipes state))
    (AppState.inventory state)
    (List.filter (fun t => negb (String.eqb t tag)) (AppState.customTags state))
    (AppState.categories state).

(** [clearInventory]; [confirmed] is the answer to the [confirm] dialog. *)
Definition clearInventory (confirmed : bool) (state : AppState.t) : option AppState.t :=
  if confirmed
  then Some (AppState.mk (AppState.recipes state) [] (AppState.customTags state)
               (AppState.categories state))
  else None.

(** [resetAll] *)
Definition resetAll (confirmed : bool) (state : AppState.t) : option AppState.t :=
  if confirmed
  then Some (AppState.mk [] []
               ["Breakfast"; "Lunch"; "Dinner"; "Snack"; "Dessert"; "Vegetarian";
                "Vegan"; "Quick"]
               ["Produce"; "Dairy"; "Meat"; "Bakery"; "Frozen"; "Pantry"; "Beverages";
                "Household"; "Other"])
  else None.

(** What the user can do on the settings page. *)
Inductive settings_action :=
| AddTag (newTag : string)
| AddCategory (newCategory : string)
| RemoveTag (tag : string)
| RemoveCategory (category : string)
| ClearInventory (confirmed : bool)
| ResetAll (confirmed : bool).

(** The state held by the application after one settings action. *)
Definition settings_step (state : AppState.t) (a : settings_action) : AppState.t :=
  match a with
  | AddTag t => default state (addTag t state)
  | AddCategory c => default state (addCategory c state)
  | RemoveTag t => removeTag t state
  | RemoveCategory c => state_after (removeCategory c state) state
  | ClearInventory b => default state (clearInventory b state)
  | ResetAll b => default state (resetAll b state)
  end.

(** ** Recipe form (RecipeForm.tsx) *)

Module FormData.
(** [Omit<Recipe, 'id'>] *)
Record t := mk {
  name : string;
  description : string;
  ingredients : list RecipeIngredient.t;
  instructions : string;
  tags : list string;
  prepTime : option Z
}.
End FormData.

(** The initial [formData]. *)
Definition initial_form (recipe : option Recipe.t) : FormData.t :=
  match recipe with
  | Some r =>
      FormData.mk (Recipe.name r) (Recipe.description r) (Recipe.ingredients r)
        (Recipe.instructions r) (Recipe.tags r) (Recipe.prepTime r)
  | None => FormData.mk "" "" [] "" [] (Some 30%Z)
  end.

(** [addIngredient]: the new form data, or [None] for the early return. *)
Definition addIngredient (uuid : string) (newIng : RecipeIngredient.t)
    (formData : FormData.t) : option FormData.t :=
  if is_blank (Ingredient.name newIng) then None
  else Some (FormData.mk (FormData.name formData) (FormData.description formData)
               (FormData.ingredients formData
                ++ [RecipeIngredient.mk
                      (Ingredient.mk uuid (Ingredient.name newIng)
                         (Ingredient.amount newIng) (Ingredient.unit newIng)
                         (Ingredient.category newIng)
                         (Ingredient.untrackedAmount newIng)
                         (Ingredient.stockStatus newIng))
                      (RecipeIngredient.optional newIng)])
               (FormData.instructions formData) (FormData.tags formData)
               (FormData.prepTime formData)).

Definition removeIngredient (id : string) (formData : FormData.t) : FormData.t :=
  FormData.mk (FormData.name formData) (FormData.description formData)
    (List.filter (fun i : RecipeIngredient.t => negb (String.eqb (Ingredient.id i) id))
                 (FormData.ingredients formData))
    (FormData.instructions formData) (FormData.tags formData)
    (FormData.prepTime formData).


(** [handleSubmit]: the recipe handed to [onSave]; the id is
    [recipe?.id || uuidv4()]. *)
Definition handleSubmit (uuid : string) (recipe : option Recipe.t) (formData : FormData.t)
  : Recipe.t :=
  Recipe.mk (match recipe with
             | Some r => str_or (Recipe.id r) uuid
             | None => uuid
             end)
    (FormData.name formData) (FormData.description formData)
    (FormData.ingredients formData) (FormData.instructions formData)
    (FormData.tags formData) (FormData.prepTime formData).

(** ** Sequences of user actions *)

(** What the user can do to the meal plan. *)
Inductive plan_action :=
| AddToPlan (recipeId : string)
| UpdateCount (recipeId : string) (delta : Z).

Definition plan_step (selectedRecipes : list Plan.t) (a : plan_action) : list Plan.t :=
  match a with
  | AddToPlan id => addToPlan id selectedRecipes
  | UpdateCount id delta => updateCount id delta selectedRecipes
  end.

(** A well-formed plan: every multiplier is at least 1 and no recipe is
    planned twice. *)
Definition plan_ok (selectedRecipes : list Plan.t) : Prop :=
  Forall (fun r => (1 <= Plan.count r)%Z) selectedRecipes
  /\ List.NoDup (map Plan.recipeId selectedRecipes).

(** What the user can do to the inventory. *)
Inductive inventory_action :=
| AddItem (uuid : string) (newItem : NewItem.t)
| AddToInventory (uuid : string) (item : Item.t)
| RemoveItem (id : string)
| UpdateAmount (id : string) (delta : Z)
| ToggleUntracked (id : string)
| SetStockStatus (id : string) (status : StockStatus)
| UpdateCategory (id : string) (category : string).

Definition inventory_step (inventory : list Ingredient.t) (a : inventory_action)
  : list Ingredient.t :=
  match a with
  | AddItem uuid newItem => inventory_after uuid inventory newItem
  | AddToInventory uuid item => addToInventory uuid item inventory
  | RemoveItem id => removeItem id inventory
  | UpdateAmount id delta => updateAmount id delta inventory
  | ToggleUntracked id => toggleUntracked id inventory
  | SetStockStatus id status => setStockStatus id status inventory
  | UpdateCategory id category => updateCategory id category inventory
  end.

(** No two inventory items share a name up to letter case. *)
Definition names_unique (inventory : list Ingredient.t) : Prop :=
  List.NoDup (map (fun i => toLowerCase (Ingredient.name i)) inventory).

(** A recipe with the [optional] flags of its ingredients replaced. *)
Definition set_optional (f : RecipeIngredient.t -> option bool) (r : Recipe.t) : Recipe.t :=
  Recipe.mk (Recipe.id r) (Recipe.name r) (Recipe.description r)
    (map (fun q : RecipeIngredient.t => RecipeIngredient.mk q (f q)) (Recipe.ingredients r))
    (Recipe.instructions r) (Recipe.tags r) (Recipe.prepTime r).

(** The name of a shopping-list line up to letter case. *)
Definition line_key (e : Item.t) : string := toLowerCase (Item.name e).

(** A usable vocabulary: at least one category, and neither categories nor
    tags listed twice. *)
Definition vocabulary_ok (state : AppState.t) : Prop :=
  AppState.categories state <> []
  /\ List.NoDup (AppState.categories state)
  /\ List.NoDup (AppState.customTags state).

(** * Properties *)

(** ** Strings *)

Lemma lower_ascii_fixed c : is_upper c = false -> lower_ascii c = c.
Proof. unfold lower_ascii. now intros ->. Qed.

Lemma lower_ascii_moves c : is_upper c = true -> lower_ascii c <> c.
Proof.
  destruct c as [[] [] [] [] [] [] [] []]; vm_compute; congruence.
Qed.

Lemma lower_ascii_not_upper c : is_upper (lower_ascii c) = false.
Proof.
  destruct c as [[] [] [] [] [] [] [] []]; reflexivity.
Qed.

Lemma toLowerCase_not_upper s : has_upper (toLowerCase s) = false.
Proof.
  induction s as [|c r IH]; simpl; [reflexivity|].
  now rewrite lower_ascii_not_upper, IH.
Qed.

Lemma toLowerCase_fixed s : has_upper s = false -> toLowerCase s = s.
Proof.
  induction s as [|c r IH]; simpl; [reflexivity|].
  intros [Hc Hr]%orb_false_iff.
  now rewrite (lower_ascii_fixed _ Hc), (IH Hr).
Qed.

Lemma toLowerCase_moves s : has_upper s = true -> toLowerCase s <> s.
Proof.
  induction s as [|c r IH]; simpl; [discriminate|].
  intros H E. injection E as Ec Er.
  destruct (is_upper c) eqn:Hc.
  - now apply (lower_ascii_moves c).
  - simpl in H. now apply IH.
Qed.

Lemma toLowerCase_idem s : toLowerCase (toLowerCase s) = toLowerCase s.
Proof. apply toLowerCase_fixed, toLowerCase_not_upper. Qed.

Lemma same_name_iff a b : same_name a b = true <-> toLowerCase a = toLowerCase b.
Proof. unfold same_name. apply String.eqb_eq. Qed.

(** ** Arrays *)

Lemma findIndex_none {A} (p : A -> bool) l :
  findIndex p l = None <-> forall x, In x l -> p x = false.
Proof.
  induction l as [|y r IH]; simpl.
  - split; [intros _ x []|reflexivity].
  - destruct (p y) eqn:Hy.
    + split; [discriminate|]. intros H. rewrite (H y) in Hy; [discriminate|auto].
    + destruct (findIndex p r) as [k|]; simpl.
      * split; [discriminate|]. intros H.
        destruct IH as [_ IH]. discriminate IH. intros x Hx. apply H. auto.
      * split; [|reflexivity]. intros _ x [<-|Hx]; [exact Hy|].
        destruct IH as [IH _]. now apply IH.
Qed.

(** ** The [needed] record *)

Lemma needed_get_app n k k' d :
  needed_get (n ++ [(k', d)]) k =
  match needed_get n k with
  | Some x => Some x
  | None => if String.eqb k' k then Some d else None
  end.
Proof.
  induction n as [|[k0 d0] r IH]; simpl; [reflexivity|].
  now destruct (String.eqb k0 k).
Qed.

Lemma needed_get_add n k delta k' :
  needed_get (needed_add n k delta) k' =
  if String.eqb k k'
  then option_map (fun d => Needed.mk (Needed.amount d + delta) (Needed.unit d)
                                      (Needed.category d)) (needed_get n k')
  else needed_get n k'.
Proof.
  induction n as [|[k0 d0] r IH]; simpl.
  - now destruct (String.eqb k k').
  - destruct (String.eqb k0 k) eqn:E0; simpl.
    + apply String.eqb_eq in E0. subst k0.
      now destruct (String.eqb k k').
    + destruct (String.eqb k0 k') eqn:E1.
      * apply String.eqb_eq in E1. subst k0.
        rewrite String.eqb_sym, E0. reflexivity.
      * exact IH.
Qed.

Lemma needed_add_keys n k delta : map fst (needed_add n k delta) = map fst n.
Proof.
  induction n as [|[k0 d0] r IH]; simpl; [reflexivity|].
  destruct (String.eqb k0 k); simpl; [reflexivity|now rewrite IH].
Qed.

Lemma needed_get_none n k : needed_get n k = None <-> ~ In k (map fst n).
Proof.
  induction n as [|[k0 d0] r IH]; simpl; [tauto|].
  destruct (String.eqb k0 k) eqn:E.
  - apply String.eqb_eq in E. split; [discriminate|tauto].
  - apply String.eqb_neq in E. rewrite IH. tauto.
Qed.

Lemma needed_get_in n k d : needed_get n k = Some d -> In (k, d) n.
Proof.
  induction n as [|[k0 d0] r IH]; simpl; [discriminate|].
  destruct (String.eqb k0 k) eqn:E.
  - apply String.eqb_eq in E. intros [= ->]. left. now subst.
  - auto.
Qed.

Lemma needed_in_get n k d : List.NoDup (map fst n) -> In (k, d) n -> needed_get n k = Some d.
Proof.
  induction n as [|[k0 d0] r IH]; simpl; [tauto|].
  intros [Hnd Hr]%List.NoDup_cons_iff.
  intros [[= -> ->]|Hin].
  - now rewrite String.eqb_refl.
  - destruct (String.eqb k0 k) eqn:E; [|now apply IH].
    apply String.eqb_eq in E. subst k0. exfalso. apply Hnd.
    change k with (fst (k, d)). now apply List.in_map.
Qed.

(** ** Demand aggregation *)

Lemma inherited_key_neq key k :
  inherited_key key = true -> inherited_key k = false -> String.eqb key k = false.
Proof.
  intros Hk Hn. apply String.eqb_neq. intros ->. congruence.
Qed.

Lemma add_ingredient_get count n ing k :
  inherited_key k = false ->
  needed_get (add_ingredient count n ing) k =
  if String.eqb (toLowerCase (Ingredient.name ing)) k then
    match needed_get n k with
    | Some d =>
        Some (Needed.mk (Needed.amount d + Ingredient.amount ing * count)
                        (Needed.unit d) (Needed.category d))
    | None =>
        Some (Needed.mk (0 + Ingredient.amount ing * count) (Ingredient.unit ing)
                        (opt_str_or (Ingredient.category ing) "Other"))
    end
  else needed_get n k.
Proof.
  intros Hk. unfold add_ingredient.
  destruct (inherited_key (toLowerCase (Ingredient.name ing))) eqn:Hi.
  - now rewrite (inherited_key_neq _ _ Hi Hk).
  - rewrite needed_get_add.
    destruct (String.eqb (toLowerCase (Ingredient.name ing)) k) eqn:E.
    + apply String.eqb_eq in E. subst k.
      destruct (needed_get n _) eqn:G; [now rewrite G|].
      now rewrite needed_get_app, G, String.eqb_refl.
    + destruct (needed_get n (toLowerCase (Ingredient.name ing))); [reflexivity|].
      rewrite needed_get_app, E. now destruct (needed_get n k).
Qed.

Lemma add_ingredient_inherited count n ing k :
  inherited_key k = true -> needed_get n k = None ->
  needed_get (add_ingredient count n ing) k = None.
Proof.
  intros Hk Hn. unfold add_ingredient.
  destruct (inherited_key (toLowerCase (Ingredient.name ing))) eqn:Hi; [exact Hn|].
  assert (E : String.eqb (toLowerCase (Ingredient.name ing)) k = false).
  { apply String.eqb_neq. intros E. rewrite E in Hi. congruence. }
  rewrite needed_get_add, E.
  destruct (needed_get n (toLowerCase (Ingredient.name ing))); [exact Hn|].
  now rewrite needed_get_app, Hn, E.
Qed.

Lemma add_ingredient_keys count n ing :
  List.NoDup (map fst n) -> List.NoDup (map fst (add_ingredient count n ing)).
Proof.
  intros Hn. unfold add_ingredient.
  destruct (inherited_key _); [exact Hn|].
  rewrite needed_add_keys.
  destruct (needed_get n _) eqn:G; [exact Hn|].
  rewrite map_app. simpl. apply needed_get_none in G.
  apply List.NoDup_app; repeat split; auto.
  - constructor; [intros []|constructor].
  - intros x Hx [<-|[]]. contradiction.
Qed.

Lemma add_ingredient_amount count n ing k :
  inherited_key k = false ->
  amount_of (needed_get (add_ingredient count n ing) k) =
  (amount_of (needed_get n k) + ingredient_demand k count ing)%Z.
Proof.
  intros Hk. rewrite (add_ingredient_get _ _ _ _ Hk). unfold ingredient_demand.
  destruct (String.eqb _ k); [|simpl; lia].
  destruct (needed_get n k); simpl; lia.
Qed.

Lemma add_ingredients_amount count ings n k :
  inherited_key k = false ->
  amount_of (needed_get (fold_left (add_ingredient count) ings n) k) =
  (amount_of (needed_get n k) + recipe_demand k count ings)%Z.
Proof.
  intros Hk. revert n. induction ings as [|ing r IH]; intros n; simpl; [lia|].
  rewrite IH, add_ingredient_amount by exact Hk. lia.
Qed.

Lemma add_ingredients_keys count ings n :
  List.NoDup (map fst n) ->
  List.NoDup (map fst (fold_left (add_ingredient count) ings n)).
Proof.
  revert n. induction ings as [|ing r IH]; intros n Hn; simpl; [exact Hn|].
  apply IH. now apply add_ingredient_keys.
Qed.

Lemma add_ingredients_inherited count ings n k :
  inherited_key k = true -> needed_get n k = None ->
  needed_get (fold_left (add_ingredient count) ings n) k = None.
Proof.
  intros Hk. revert n. induction ings as [|ing r IH]; intros n Hn; simpl; [exact Hn|].
  apply IH. now apply add_ingredient_inherited.
Qed.

(** A key of the record comes from the record before the loop or from one
    of the ingredients the loop visited. *)
Lemma add_ingredients_origin count ings n k d :
  needed_get (fold_left (add_ingredient count) ings n) k = Some d ->
  needed_get n k <> None
  \/ exists ing, In ing ings /\ toLowerCase (Ingredient.name ing) = k.
Proof.
  revert n. induction ings as [|ing r IH]; intros n; simpl.
  - intros ->. now left.
  - intros H. destruct (IH _ H) as [Hn|(i & Hi & Hk)].
    + destruct (inherited_key k) eqn:Ek.
      * left. intros Hnone. apply Hn. now apply add_ingredient_inherited.
      * rewrite (add_ingredient_get _ _ _ _ Ek) in Hn.
        destruct (String.eqb (toLowerCase (Ingredient.name ing)) k) eqn:E.
        -- apply String.eqb_eq in E. right. exists ing. auto.
        -- now left.
    + right. exists i. auto.
Qed.

Lemma aggregate_from_amount selectedRecipes recipes n k :
  inherited_key k = false ->
  amount_of (needed_get (fold_left (add_plan recipes) selectedRecipes n) k) =
  (amount_of (needed_get n k) + demand selectedRecipes recipes k)%Z.
Proof.
  intros Hk. revert n.
  induction selectedRecipes as [|plan r IH]; intros n; simpl; [lia|].
  rewrite IH. unfold add_plan, plan_demand.
  destruct (find _ recipes); [|lia].
  rewrite add_ingredients_amount by exact Hk. lia.
Qed.

Lemma aggregate_from_keys selectedRecipes recipes n :
  List.NoDup (map fst n) ->
  List.NoDup (map fst (fold_left (add_plan recipes) selectedRecipes n)).
Proof.
  revert n. induction selectedRecipes as [|plan r IH]; intros n Hn; simpl; [exact Hn|].
  apply IH. unfold add_plan. destruct (find _ recipes); [|exact Hn].
  now apply add_ingredients_keys.
Qed.

Lemma aggregate_from_inherited selectedRecipes recipes n k :
  inherited_key k = true -> needed_get n k = None ->
  needed_get (fold_left (add_plan recipes) selectedRecipes n) k = None.
Proof.
  intros Hk. revert n.
  induction selectedRecipes as [|plan r IH]; intros n Hn; simpl; [exact Hn|].
  apply IH. unfold add_plan. destruct (find _ recipes); [|exact Hn].
  now apply add_ingredients_inherited.
Qed.

Lemma aggregate_from_origin selectedRecipes recipes n k d :
  needed_get (fold_left (add_plan recipes) selectedRecipes n) k = Some d ->
  needed_get n k <> None
  \/ exists ing, planned selectedRecipes recipes ing
                 /\ toLowerCase (Ingredient.name ing) = k.
Proof.
  revert n. induction selectedRecipes as [|plan r IH]; intros n; simpl.
  - intros ->. now left.
  - intros H. destruct (IH _ H) as [Hn|(ing & (p & rc & Hp & Hf & Hi) & Hk)].
    + unfold add_plan in Hn.
      destruct (find _ recipes) as [rc|] eqn:Hf; [|now left].
      destruct (needed_get (fold_left _ _ n) k) as [d'|] eqn:G; [|contradiction].
      destruct (add_ingredients_origin _ _ _ _ _ G) as [Hn'|(ing & Hi & Hk)];
        [now left|].
      right. exists ing. split; [|exact Hk].
      exists plan, rc. simpl. auto.
    + right. exists ing. split; [|exact Hk].
      exists p, rc. simpl. auto.
Qed.

(** The keys of [needed] are distinct. *)
Lemma aggregate_keys selectedRecipes recipes :
  List.NoDup (map fst (aggregate selectedRecipes recipes)).
Proof. apply aggregate_from_keys. constructor. Qed.

(** No key of [needed] is one of the inherited property names. *)
Lemma aggregate_own selectedRecipes recipes k d :
  needed_get (aggregate selectedRecipes recipes) k = Some d ->
  inherited_key k = false.
Proof.
  intros H. destruct (inherited_key k) eqn:E; [|reflexivity].
  unfold aggregate in H. rewrite aggregate_from_inherited in H; auto. discriminate.
Qed.

(** The amount recorded under a key is the total demand of the key. *)
Lemma aggregate_amount selectedRecipes recipes k d :
  needed_get (aggregate selectedRecipes recipes) k = Some d ->
  Needed.amount d = demand selectedRecipes recipes k.
Proof.
  intros H. pose proof (aggregate_own _ _ _ _ H) as Hk.
  pose proof (aggregate_from_amount selectedRecipes recipes [] k Hk) as Ha.
  fold (aggregate selectedRecipes recipes) in Ha. rewrite H in Ha. simpl in Ha. lia.
Qed.

(** Every key is the lower-cased name of a planned ingredient. *)
Lemma aggregate_origin selectedRecipes recipes k d :
  needed_get (aggregate selectedRecipes recipes) k = Some d ->
  exists ing, planned selectedRecipes recipes ing
              /\ toLowerCase (Ingredient.name ing) = k.
Proof.
  intros H. destruct (aggregate_from_origin _ _ _ _ _ H) as [Hn|Hn]; [|exact Hn].
  now elim Hn.
Qed.

(** Conversely, every planned ingredient whose lower-cased name is not an
    inherited property name has its key in [needed]. *)
Lemma add_ingredient_keeps count n ing k :
  inherited_key k = false -> needed_get n k <> None ->
  needed_get (add_ingredient count n ing) k <> None.
Proof.
  intros Hk Hn. rewrite (add_ingredient_get _ _ _ _ Hk).
  destruct (String.eqb _ k); [|exact Hn].
  destruct (needed_get n k); discriminate.
Qed.

Lemma add_ingredients_keeps count ings n k :
  inherited_key k = false -> needed_get n k <> None ->
  needed_get (fold_left (add_ingredient count) ings n) k <> None.
Proof.
  intros Hk. revert n. induction ings as [|ing r IH]; intros n Hn; simpl; [exact Hn|].
  apply IH. now apply add_ingredient_keeps.
Qed.

Lemma add_ingredients_has count ings n (ing : RecipeIngredient.t) :
  inherited_key (toLowerCase (Ingredient.name ing)) = false ->
  In ing ings ->
  needed_get (fold_left (add_ingredient count) ings n)
             (toLowerCase (Ingredient.name ing)) <> None.
Proof.
  intros Hk. revert n. induction ings as [|i r IH]; intros n; simpl; [tauto|].
  intros [->|Hin]; [|now apply IH].
  apply add_ingredients_keeps; [exact Hk|].
  rewrite (add_ingredient_get _ _ _ _ Hk), String.eqb_refl.
  destruct (needed_get n _); discriminate.
Qed.

Lemma aggregate_from_keeps selectedRecipes recipes n k :
  inherited_key k = false -> needed_get n k <> None ->
  needed_get (fold_left (add_plan recipes) selectedRecipes n) k <> None.
Proof.
  intros Hk. revert n.
  induction selectedRecipes as [|plan r IH]; intros n Hn; simpl; [exact Hn|].
  apply IH. unfold add_plan. destruct (find _ recipes); [|exact Hn].
  now apply add_ingredients_keeps.
Qed.

Lemma aggregate_has selectedRecipes recipes (ing : RecipeIngredient.t) :
  planned selectedRecipes recipes ing ->
  inherited_key (toLowerCase (Ingredient.name ing)) = false ->
  exists d, needed_get (aggregate selectedRecipes recipes)
                       (toLowerCase (Ingredient.name ing)) = Some d.
Proof.
  intros (plan & recipe & Hp & Hf & Hi) Hk.
  assert (H : forall n, needed_get (fold_left (add_plan recipes) selectedRecipes n)
                          (toLowerCase (Ingredient.name ing)) <> None).
  { induction selectedRecipes as [|p r IH]; intros n; simpl; [destruct Hp|].
    destruct Hp as [->|Hp]; [|now apply IH].
    apply aggregate_from_keeps; [exact Hk|].
    unfold add_plan. rewrite Hf. now apply add_ingredients_has. }
  specialize (H []). fold (aggregate selectedRecipes recipes) in H.
  destruct (needed_get _ _) as [d|]; [eauto|contradiction].
Qed.

(** ** The netting stage *)

Lemma net_entry_app inventory acc e :
  net_entry inventory acc e = acc ++ net_entry inventory [] e.
Proof.
  destruct e as [k d]. unfold net_entry.
  destruct (assumed_enough _); [now rewrite app_nil_r|].
  destruct (0 <? _)%Z; [reflexivity|now rewrite app_nil_r].
Qed.

Lemma netting_from inventory n acc :
  fold_left (net_entry inventory) n acc = acc ++ flat_map (net_entry inventory []) n.
Proof.
  revert acc. induction n as [|e r IH]; intros acc; simpl; [now rewrite app_nil_r|].
  rewrite IH, (net_entry_app inventory acc e). now rewrite <- app_assoc.
Qed.

Lemma net_entry_in inventory k d e :
  In e (net_entry inventory [] (k, d)) <->
  assumed_enough (in_stock inventory k) = false
  /\ (0 < Z.max 0 (Needed.amount d - stock_amount (in_stock inventory k)))%Z
  /\ e = Item.mk k (Z.max 0 (Needed.amount d - stock_amount (in_stock inventory k)))
                 (Needed.unit d) (Needed.category d).
Proof.
  unfold net_entry. destruct (assumed_enough _).
  - simpl. split; [tauto|]. intros [? _]. discriminate.
  - destruct (0 <? _)%Z eqn:E.
    + apply Z.ltb_lt in E. simpl. split.
      * intros [<-|[]]. auto.
      * intros (_ & _ & ->). now left.
    + apply Z.ltb_ge in E. simpl. split; [tauto|]. intros (_ & H & _). lia.
Qed.

(** An entry of the netting stage is the net line of one key of [needed]. *)
Lemma netting_in selectedRecipes recipes inventory e :
  In e (netting (aggregate selectedRecipes recipes) inventory) <->
  exists d,
    needed_get (aggregate selectedRecipes recipes) (Item.name e) = Some d
    /\ assumed_enough (in_stock inventory (Item.name e)) = false
    /\ (0 < Z.max 0 (Needed.amount d - stock_amount (in_stock inventory (Item.name e))))%Z
    /\ e = Item.mk (Item.name e)
             (Z.max 0 (Needed.amount d - stock_amount (in_stock inventory (Item.name e))))
             (Needed.unit d) (Needed.category d).
Proof.
  unfold netting. rewrite netting_from. simpl. rewrite in_flat_map. split.
  - intros ([k d] & Hin & He). apply net_entry_in in He as (Ha & Hp & ->). simpl.
    exists d. repeat split; auto.
    apply needed_in_get; [apply aggregate_keys|exact Hin].
  - intros (d & Hg & Ha & Hp & He). exists (Item.name e, d). split.
    + now apply needed_get_in.
    + apply net_entry_in. auto.
Qed.

(** The name of a netting entry is a lower-cased ingredient name. *)
Lemma netting_name selectedRecipes recipes inventory e :
  In e (netting (aggregate selectedRecipes recipes) inventory) ->
  exists ing, planned selectedRecipes recipes ing
              /\ Item.name e = toLowerCase (Ingredient.name ing).
Proof.
  intros (d & Hg & _)%netting_in.
  destruct (aggregate_origin _ _ _ _ Hg) as (ing & Hp & Hk). eauto.
Qed.

(** ** The replenishment stage *)

Lemma replenish_step_eq replenishItems acc item :
  replenish_step replenishItems acc item =
  if wants_replenish replenishItems item && negb (listed acc (Ingredient.name item))
  then acc ++ [replenish_item item] else acc.
Proof.
  unfold replenish_step, wants_replenish.
  destruct (status_is _ OutOfStock); simpl.
  - now destruct (listed _ _).
  - destruct (status_is _ LowStock && _); simpl; [now destruct (listed _ _)|reflexivity].
Qed.

Lemma listed_app l1 l2 name : listed (l1 ++ l2) name = listed l1 name || listed l2 name.
Proof. unfold listed. apply existsb_app. Qed.

Lemma listed_true l name :
  listed l name = true <-> exists e, In e l /\ same_name (Item.name e) name = true.
Proof. unfold listed. apply existsb_exists. Qed.

Lemma listed_same_name l a b : same_name a b = true -> listed l a = listed l b.
Proof.
  intros H. apply same_name_iff in H. unfold listed, same_name. now rewrite H.
Qed.

(** Whether a name is listed after the replenishment stage. *)
Lemma replenish_listed replenishItems inventory acc name :
  listed (replenish replenishItems inventory acc) name =
  listed acc name
  || existsb (fun item => wants_replenish replenishItems item
                          && same_name (Ingredient.name item) name) inventory.
Proof.
  unfold replenish. revert acc.
  induction inventory as [|item r IH]; intros acc; simpl; [now rewrite orb_false_r|].
  rewrite IH, replenish_step_eq.
  destruct (wants_replenish replenishItems item); simpl; [|reflexivity].
  destruct (listed acc (Ingredient.name item)) eqn:L; simpl.
  - destruct (same_name (Ingredient.name item) name) eqn:S; simpl; [|reflexivity].
    rewrite <- (listed_same_name acc _ _ S), L. reflexivity.
  - rewrite listed_app. simpl. unfold listed at 2. simpl.
    rewrite orb_false_r, orb_assoc. reflexivity.
Qed.

(** The replenishment stage keeps what the netting stage produced and only
    appends entries built from inventory items it wants to replenish. *)
Lemma replenish_split replenishItems inventory acc :
  exists injected,
    replenish replenishItems inventory acc = acc ++ injected
    /\ forall e, In e injected ->
         exists item, In item inventory
                      /\ wants_replenish replenishItems item = true
                      /\ e = replenish_item item.
Proof.
  unfold replenish. revert acc.
  induction inventory as [|item r IH]; intros acc; simpl.
  - exists []. split; [now rewrite app_nil_r|]. intros e [].
  - destruct (IH (replenish_step replenishItems acc item)) as (inj & Heq & Hinj).
    rewrite Heq, replenish_step_eq.
    destruct (wants_replenish replenishItems item) eqn:W; simpl.
    + destruct (listed acc (Ingredient.name item)); simpl.
      * exists inj. split; [reflexivity|].
        intros e He. destruct (Hinj e He) as (i & Hi & Hw & Hr). eauto.
      * exists (replenish_item item :: inj). split; [now rewrite <- app_assoc|].
        intros e [<-|He]; [eauto|].
        destruct (Hinj e He) as (i & Hi & Hw & Hr). eauto.
    + exists inj. split; [reflexivity|].
      intros e He. destruct (Hinj e He) as (i & Hi & Hw & Hr). eauto.
Qed.

Lemma replenish_keeps replenishItems inventory acc e :
  In e acc -> In e (replenish replenishItems inventory acc).
Proof.
  intros H. destruct (replenish_split replenishItems inventory acc) as (inj & -> & _).
  apply in_or_app. now left.
Qed.

(** The first inventory item of a name that the stage wants to replenish is
    injected when the name is not listed yet. *)
Lemma replenish_first replenishItems before item after acc :
  wants_replenish replenishItems item = true ->
  listed acc (Ingredient.name item) = false ->
  (forall other, In other before ->
     same_name (Ingredient.name other) (Ingredient.name item) = true ->
     wants_replenish replenishItems other = false) ->
  In (replenish_item item) (replenish replenishItems (before ++ item :: after) acc).
Proof.
  intros W L Hb. unfold replenish. rewrite fold_left_app. simpl.
  apply (replenish_keeps replenishItems after).
  fold (replenish replenishItems before acc).
  rewrite replenish_step_eq, W, replenish_listed, L. simpl.
  assert (E : existsb (fun i => wants_replenish replenishItems i
                && same_name (Ingredient.name i) (Ingredient.name item)) before = false).
  { apply not_true_is_false. intros (o & Ho & Hc)%existsb_exists.
    apply andb_true_iff in Hc as [Hw Hs]. rewrite (Hb o Ho Hs) in Hw. discriminate. }
  rewrite E. simpl. apply in_or_app. right. now left.
Qed.

(** ** The shopping list *)

Lemma shoppingList_listed selectedRecipes recipes inventory replenishItems name :
  listed (shoppingList selectedRecipes recipes inventory replenishItems) name = true <->
  listed (netting (aggregate selectedRecipes recipes) inventory) name = true
  \/ exists item, In item inventory
                  /\ same_name (Ingredient.name item) name = true
                  /\ wants_replenish replenishItems item = true.
Proof.
  unfold shoppingList. rewrite replenish_listed, orb_true_iff, existsb_exists.
  split; (intros [H|(i & Hi & Hc)]; [now left|right; exists i]).
  - apply andb_true_iff in Hc as [? ?]. auto.
  - destruct Hc as [-> ->]. auto.
Qed.

Lemma netting_key_lower selectedRecipes recipes key data :
  needed_get (aggregate selectedRecipes recipes) key = Some data ->
  toLowerCase key = key.
Proof.
  intros (ing & _ & <-)%aggregate_origin. apply toLowerCase_idem.
Qed.

(** A netting entry matches a key of [needed] case-insensitively only when
    its name is that key. *)
Lemma netting_same_name selectedRecipes recipes inventory key data e :
  needed_get (aggregate selectedRecipes recipes) key = Some data ->
  In e (netting (aggregate selectedRecipes recipes) inventory) ->
  same_name (Item.name e) key = true -> Item.name e = key.
Proof.
  intros Hk He Hs. apply same_name_iff in Hs.
  rewrite (netting_key_lower _ _ _ _ Hk) in Hs.
  apply netting_in in He as (d & Hd & _).
  now rewrite (netting_key_lower _ _ _ _ Hd) in Hs.
Qed.

(** C1.  Shopping-list netting.  For every entry of the aggregated demand
    record (a key, with the amount, unit and category recorded under it):
    the recorded amount is the total demand of the key, the sum over the
    planned recipes of amount times multiplier; and when the inventory item
    matched case-insensitively is not an untracked item assumed sufficient,
    the netting stage emits for the key exactly the line whose amount is the
    demand minus the stocked amount (zero without a match) floored at zero,
    and emits it if and only if that remainder is strictly positive; that
    line is then in the final list under the same condition. *)
Theorem shopping_list_netting selectedRecipes recipes inventory replenishItems key data :
  needed_get (aggregate selectedRecipes recipes) key = Some data ->
  assumed_enough (in_stock inventory key) = false ->
  let remainder :=
    Z.max 0 (demand selectedRecipes recipes key
             - stock_amount (in_stock inventory key)) in
  let entry := Item.mk key remainder (Needed.unit data) (Needed.category data) in
  Needed.amount data = demand selectedRecipes recipes key
  /\ (forall e, In e (netting (aggregate selectedRecipes recipes) inventory) ->
                Item.name e = key -> e = entry)
  /\ ((exists e, In e (netting (aggregate selectedRecipes recipes) inventory)
                 /\ Item.name e = key) <-> (0 < remainder)%Z)
  /\ (In entry (shoppingList selectedRecipes recipes inventory replenishItems)
      <-> (0 < remainder)%Z).
Proof.
  intros Hk Ha remainder entry.
  pose proof (aggregate_amount _ _ _ _ Hk) as Hd.
  assert (Hnet : (0 < remainder)%Z ->
                 In entry (netting (aggregate selectedRecipes recipes) inventory)).
  { intros Hp. apply netting_in. exists data. simpl.
    unfold entry, remainder in *. rewrite Hd. auto. }
  split; [exact Hd|]. split; [|split].
  - intros e (d & Hg & _ & _ & He)%netting_in Hn. rewrite Hn in *.
    assert (d = data) by congruence. subst d.
    rewrite He. unfold entry, remainder. now rewrite Hd.
  - split.
    + intros (e & (d & Hg & _ & Hp & _)%netting_in & Hn). rewrite Hn in *.
      assert (d = data) by congruence. subst d.
      unfold remainder. now rewrite <- Hd.
    + intros Hp. exists entry. auto.
  - split.
    + unfold shoppingList.
      destruct (replenish_split replenishItems inventory
                  (netting (aggregate selectedRecipes recipes) inventory))
        as (inj & -> & Hinj).
      intros [He|He]%in_app_or.
      * apply netting_in in He as (d & Hg & _ & Hp & _). simpl in *.
        assert (d = data) by congruence. subst d.
        unfold remainder. now rewrite <- Hd.
      * destruct (Hinj _ He) as (i & _ & _ & Hi).
        apply (f_equal Item.amount) in Hi. simpl in Hi. lia.
    + intros Hp. apply replenish_keeps. auto.
Qed.

(** The scenario of the specification: Margherita Pizza twice, 50 ml of
    tracked tomato sauce in stock, so the list has tomato sauce, 150. *)
Lemma shopping_list_netting_margherita :
  In (Item.mk "tomato sauce" 150 "ml" "Pantry")
     (shoppingList [Plan.mk "1" 2] (AppState.recipes INITIAL_DATA)
        [ingredient "inv3" "Tomato Sauce" 50 "ml" "Pantry"] ∅).
Proof.
  apply (shopping_list_netting [Plan.mk "1" 2] (AppState.recipes INITIAL_DATA)
           [ingredient "inv3" "Tomato Sauce" 50 "ml" "Pantry"] ∅
           "tomato sauce" (Needed.mk 200 "ml" "Pantry") eq_refl eq_refl).
  reflexivity.
Defined.

(** C2 as stated fails: tomato sauce is demanded, the matching inventory
    item is untracked and low on stock, and its id is flagged for
    replenishment, so the replenishment stage lists it. *)
Lemma untracked_low_stock_is_listed :
  ~ (forall selectedRecipes recipes inventory replenishItems key data item,
       needed_get (aggregate selectedRecipes recipes) key = Some data ->
       in_stock inventory key = Some item ->
       truthy (Ingredient.untrackedAmount item) = true ->
       status_is (Ingredient.stockStatus item) OutOfStock = false ->
       listed (shoppingList selectedRecipes recipes inventory replenishItems) key = false).
Proof.
  intros H.
  specialize (H [Plan.mk "1" 2] (AppState.recipes INITIAL_DATA)
                [Ingredient.mk "inv3" "Tomato Sauce" 50 "ml" (Some "Pantry")
                               (Some true) (Some LowStock)]
                {["inv3"]} "tomato sauce" (Needed.mk 200 "ml" "Pantry") _
                eq_refl eq_refl eq_refl eq_refl).
  vm_compute in H. discriminate H.
Qed.

(** C2, amended.  When the inventory item matching a demanded ingredient is
    untracked and not out of stock, the netting stage emits no line for the
    ingredient, whatever the demand; the ingredient is listed in the output
    exactly when the replenishment stage injects an inventory item of that
    name (one that is out of stock, or low on stock with its id in the
    replenish set), and every line of that name is then such an injected
    line of quantity 1. *)
Theorem untracked_not_netted selectedRecipes recipes inventory replenishItems key data item :
  needed_get (aggregate selectedRecipes recipes) key = Some data ->
  in_stock inventory key = Some item ->
  truthy (Ingredient.untrackedAmount item) = true ->
  status_is (Ingredient.stockStatus item) OutOfStock = false ->
  listed (netting (aggregate selectedRecipes recipes) inventory) key = false
  /\ (listed (shoppingList selectedRecipes recipes inventory replenishItems) key = true
      <-> exists other, In other inventory
                        /\ same_name (Ingredient.name other) key = true
                        /\ wants_replenish replenishItems other = true)
  /\ (forall e, In e (shoppingList selectedRecipes recipes inventory replenishItems) ->
        same_name (Item.name e) key = true ->
        Item.amount e = 1%Z
        /\ exists other, In other inventory
                         /\ wants_replenish replenishItems other = true
                         /\ e = replenish_item other).
Proof.
  intros Hk Hs Hu Ho.
  assert (Hnet : forall e, In e (netting (aggregate selectedRecipes recipes) inventory) ->
                           same_name (Item.name e) key = true -> False).
  { intros e He Hn. pose proof (netting_same_name _ _ _ _ _ _ Hk He Hn) as Hname.
    apply netting_in in He as (d & _ & Ha & _). rewrite Hname, Hs in Ha.
    simpl in Ha. rewrite Hu, Ho in Ha. discriminate. }
  assert (Hl : listed (netting (aggregate selectedRecipes recipes) inventory) key = false).
  { apply not_true_is_false. intros (e & He & Hn)%listed_true. eauto. }
  split; [exact Hl|]. split.
  - rewrite shoppingList_listed, Hl. split; [intros [?|?]; [discriminate|auto]|auto].
  - unfold shoppingList.
    destruct (replenish_split replenishItems inventory
                (netting (aggregate selectedRecipes recipes) inventory))
      as (inj & -> & Hinj).
    intros e [He|He]%in_app_or Hn; [destruct (Hnet e He Hn)|].
    destruct (Hinj e He) as (o & Hoi & Hw & ->). split; [reflexivity|eauto].
Qed.

(** The avocado scenario of the specification: untracked and in stock, three
    avocados demanded, and no avocado line in the list. *)
Lemma untracked_not_netted_avocado :
  listed (shoppingList [Plan.mk "2" 3] (AppState.recipes INITIAL_DATA)
            [Ingredient.mk "inv2" "Avocado" 0 "pcs" (Some "Produce")
                           (Some true) (Some InStock)] ∅) "avocado" = false.
Proof.
  pose proof (untracked_not_netted [Plan.mk "2" 3] (AppState.recipes INITIAL_DATA)
           [Ingredient.mk "inv2" "Avocado" 0 "pcs" (Some "Produce")
                          (Some true) (Some InStock)] ∅
           "avocado" (Needed.mk 3 "pcs" "Produce") _
           eq_refl eq_refl eq_refl eq_refl) as (_ & H & _).
  apply not_true_is_false. intros (o & [<-|[]] & _ & Hw)%H. discriminate Hw.
Defined.

(** C3 as stated fails: two out-of-stock inventory items share a name up
    to case; the plan is empty, so the netting stage lists nothing, yet the
    second item gets no line with its own unit and category. *)
Lemma second_out_of_stock_item_not_injected :
  ~ (forall selectedRecipes recipes inventory replenishItems item,
       In item inventory ->
       status_is (Ingredient.stockStatus item) OutOfStock = true ->
       listed (netting (aggregate selectedRecipes recipes) inventory)
              (Ingredient.name item) = true
       \/ In (replenish_item item)
             (shoppingList selectedRecipes recipes inventory replenishItems)).
Proof.
  intros H.
  specialize (H [] []
                [Ingredient.mk "a" "Milk" 0 "l" (Some "Dairy") None (Some OutOfStock);
                 Ingredient.mk "b" "milk" 0 "ml" (Some "Pantry") None (Some OutOfStock)]
                ∅
                (Ingredient.mk "b" "milk" 0 "ml" (Some "Pantry") None (Some OutOfStock))
                (or_intror (or_introl eq_refl)) eq_refl).
  vm_compute in H. destruct H as [H|[H|[]]]; discriminate H.
Qed.

(** C3, amended.  For every out-of-stock inventory item the output lists the
    item's name (case-insensitively), whatever the plan and the replenish
    set; and the line built from the item itself - its name, quantity 1, its
    unit (or 'unit' when empty) and its category (or 'Other' when absent or
    empty) - is in the output unless a line of the same name is already
    there when the item is visited, from the netting stage or injected for
    an earlier inventory item of that name. *)
Theorem out_of_stock_listed selectedRecipes recipes before item after replenishItems :
  status_is (Ingredient.stockStatus item) OutOfStock = true ->
  let inventory := before ++ item :: after in
  let out := shoppingList selectedRecipes recipes inventory replenishItems in
  listed out (Ingredient.name item) = true
  /\ (listed (netting (aggregate selectedRecipes recipes) inventory)
             (Ingredient.name item) = false ->
      (forall other, In other before ->
         same_name (Ingredient.name other) (Ingredient.name item) = true ->
         wants_replenish replenishItems other = false) ->
      In (replenish_item item) out)
  /\ replenish_item item =
       Item.mk (Ingredient.name item) 1
               (if String.eqb (Ingredient.unit item) "" then "unit"
                else Ingredient.unit item)
               (match Ingredient.category item with
                | Some c => if String.eqb c "" then "Other" else c
                | None => "Other"
                end).
Proof.
  intros Ho inventory out.
  assert (W : wants_replenish replenishItems item = true).
  { unfold wants_replenish. now rewrite Ho. }
  split; [|split].
  - apply shoppingList_listed. right. exists item. repeat split; auto.
    + apply in_or_app. right. now left.
    + apply same_name_iff. reflexivity.
  - intros Hn Hb. now apply replenish_first.
  - reflexivity.
Qed.

Lemma out_of_stock_listed_milk :
  In (Item.mk "Milk" 1 "l" "Dairy")
     (shoppingList [Plan.mk "2" 1] (AppState.recipes INITIAL_DATA)
        ([ingredient "inv1" "Sourdough Bread" 4 "slices" "Bakery"]
         ++ Ingredient.mk "a" "Milk" 0 "l" (Some "Dairy") None (Some OutOfStock)
         :: [ingredient "inv2" "Avocado" 2 "pcs" "Produce"]) ∅).
Proof.
  destruct (out_of_stock_listed [Plan.mk "2" 1] (AppState.recipes INITIAL_DATA)
              [ingredient "inv1" "Sourdough Bread" 4 "slices" "Bakery"]
              (Ingredient.mk "a" "Milk" 0 "l" (Some "Dairy") None (Some OutOfStock))
              [ingredient "inv2" "Avocado" 2 "pcs" "Produce"] ∅ eq_refl)
    as (_ & H & _).
  apply H; [reflexivity|].
  intros other [<-|[]] _. reflexivity.
Defined.

(** C4 as stated fails: three avocado toasts need three avocados, two are
    in stock and the item is marked low on stock; no id is flagged for
    replenishment, yet the netting stage lists the missing avocado. *)
Lemma low_stock_listed_without_flag :
  ~ (forall selectedRecipes recipes inventory (replenishItems : gset string) item,
       In item inventory ->
       status_is (Ingredient.stockStatus item) LowStock = true ->
       (listed (shoppingList selectedRecipes recipes inventory replenishItems)
               (Ingredient.name item) = true
        <-> Ingredient.id item ∈ replenishItems)).
Proof.
  intros H.
  specialize (H [Plan.mk "2" 3] (AppState.recipes INITIAL_DATA)
                [Ingredient.mk "inv2" "Avocado" 2 "pcs" (Some "Produce")
                               None (Some LowStock)]
                ∅
                (Ingredient.mk "inv2" "Avocado" 2 "pcs" (Some "Produce")
                               None (Some LowStock))
                (or_introl eq_refl) eq_refl).
  destruct H as [H _]. specialize (H eq_refl). simpl in H.
  now apply not_elem_of_empty in H.
Qed.

(** C4, amended.  For every low-stock inventory item, the item's name is
    listed in the output if and only if its id is in the replenish set, or
    the netting stage already lists the name (demand the stock does not
    cover), or the replenishment stage injects an inventory item of the same
    name.  In particular, when the netting stage does not list the name and
    no other inventory item shares it, the item is listed if and only if its
    id is in the replenish set. *)
Theorem low_stock_listed selectedRecipes recipes inventory
    (replenishItems : gset string) item :
  In item inventory ->
  status_is (Ingredient.stockStatus item) LowStock = true ->
  let out := shoppingList selectedRecipes recipes inventory replenishItems in
  let net := netting (aggregate selectedRecipes recipes) inventory in
  (listed out (Ingredient.name item) = true <->
     Ingredient.id item ∈ replenishItems
     \/ listed net (Ingredient.name item) = true
     \/ exists other, In other inventory
                      /\ same_name (Ingredient.name other) (Ingredient.name item) = true
                      /\ wants_replenish replenishItems other = true)
  /\ (listed net (Ingredient.name item) = false ->
      (forall other, In other inventory ->
         same_name (Ingredient.name other) (Ingredient.name item) = true ->
         other = item) ->
      (listed out (Ingredient.name item) = true <->
       Ingredient.id item ∈ replenishItems)).
Proof.
  intros Hin Hl out net.
  assert (W : wants_replenish replenishItems item = true <->
              Ingredient.id item ∈ replenishItems).
  { unfold wants_replenish. rewrite Hl.
    destruct (Ingredient.stockStatus item) as [[]|]; try discriminate Hl.
    simpl. apply bool_decide_eq_true. }
  assert (G : listed out (Ingredient.name item) = true <->
     Ingredient.id item ∈ replenishItems
     \/ listed net (Ingredient.name item) = true
     \/ exists other, In other inventory
                      /\ same_name (Ingredient.name other) (Ingredient.name item) = true
                      /\ wants_replenish replenishItems other = true).
  { unfold out. rewrite shoppingList_listed. split.
    - intros [H|H]; auto.
    - intros [H|[H|H]]; auto. right. exists item. repeat split; auto.
      + apply same_name_iff. reflexivity.
      + now apply W. }
  split; [exact G|]. intros Hn Hu. rewrite G, Hn. split.
  - intros [H|[H|(o & Ho & Hs & Hw)]]; [exact H|discriminate H|].
    rewrite (Hu o Ho Hs) in Hw. now apply W.
  - auto.
Qed.

Lemma low_stock_listed_avocado :
  listed (shoppingList [] (AppState.recipes INITIAL_DATA)
            [Ingredient.mk "inv2" "Avocado" 2 "pcs" (Some "Produce") None (Some LowStock)]
            {["inv2"]}) "Avocado" = true.
Proof.
  destruct (low_stock_listed [] (AppState.recipes INITIAL_DATA)
              [Ingredient.mk "inv2" "Avocado" 2 "pcs" (Some "Produce") None (Some LowStock)]
              {["inv2"]}
              (Ingredient.mk "inv2" "Avocado" 2 "pcs" (Some "Produce") None (Some LowStock))
              (or_introl eq_refl) eq_refl) as (_ & H).
  apply H; [reflexivity| |].
  - intros other [<-|[]] _. reflexivity.
  - simpl. apply elem_of_singleton. reflexivity.
Defined.

(** C10.  Name casing.  The output is the netting entries followed by the
    injected ones.  Every netting entry carries the lower-cased name of a
    planned ingredient (the aggregation key) and so has no upper-case
    letter; every injected entry carries the name of an inventory item as
    that item spells it.  Consequently a netting entry differs from the
    spelling of any ingredient of its key whose name has an upper-case
    letter. *)
Theorem name_casing selectedRecipes recipes inventory replenishItems :
  exists injected,
    shoppingList selectedRecipes recipes inventory replenishItems =
      netting (aggregate selectedRecipes recipes) inventory ++ injected
    /\ (forall e, In e (netting (aggregate selectedRecipes recipes) inventory) ->
          has_upper (Item.name e) = false
          /\ exists ing, planned selectedRecipes recipes ing
                         /\ Item.name e = toLowerCase (Ingredient.name ing))
    /\ (forall e, In e injected ->
          exists item, In item inventory
                       /\ wants_replenish replenishItems item = true
                       /\ Item.name e = Ingredient.name item)
    /\ (forall e (ing : RecipeIngredient.t),
          In e (netting (aggregate selectedRecipes recipes) inventory) ->
          Item.name e = toLowerCase (Ingredient.name ing) ->
          has_upper (Ingredient.name ing) = true ->
          Item.name e <> Ingredient.name ing).
Proof.
  unfold shoppingList.
  destruct (replenish_split replenishItems inventory
              (netting (aggregate selectedRecipes recipes) inventory))
    as (inj & Heq & Hinj).
  exists inj. split; [exact Heq|]. split; [|split].
  - intros e He. destruct (netting_name _ _ _ _ He) as (ing & Hp & Hn).
    split; [|eauto]. rewrite Hn. apply toLowerCase_not_upper.
  - intros e He. destruct (Hinj e He) as (i & Hi & Hw & ->). eauto.
  - intros e ing _ Hn Hu. rewrite Hn. now apply toLowerCase_moves.
Qed.

Lemma name_casing_margherita :
  shoppingList [Plan.mk "1" 1] (AppState.recipes INITIAL_DATA)
    [Ingredient.mk "inv9" "Olive Oil" 0 "ml" (Some "Pantry") (Some true) (Some OutOfStock);
     ingredient "inv8" "Pizza Dough" 1 "pcs" "Bakery";
     ingredient "inv7" "Mozzarella" 150 "g" "Dairy"] ∅
  = [Item.mk "tomato sauce" 100 "ml" "Pantry";
     Item.mk "fresh basil" 5 "leaves" "Produce";
     Item.mk "Olive Oil" 1 "ml" "Pantry"]
  /\ exists injected,
       shoppingList [Plan.mk "1" 1] (AppState.recipes INITIAL_DATA)
         [Ingredient.mk "inv9" "Olive Oil" 0 "ml" (Some "Pantry") (Some true) (Some OutOfStock);
          ingredient "inv8" "Pizza Dough" 1 "pcs" "Bakery";
          ingredient "inv7" "Mozzarella" 150 "g" "Dairy"] ∅
       = [Item.mk "tomato sauce" 100 "ml" "Pantry";
          Item.mk "fresh basil" 5 "leaves" "Produce"] ++ injected.
Proof.
  split; [reflexivity|].
  destruct (name_casing [Plan.mk "1" 1] (AppState.recipes INITIAL_DATA)
    [Ingredient.mk "inv9" "Olive Oil" 0 "ml" (Some "Pantry") (Some true) (Some OutOfStock);
     ingredient "inv8" "Pizza Dough" 1 "pcs" "Bakery";
     ingredient "inv7" "Mozzarella" 150 "g" "Dairy"] ∅) as (inj & Heq & _).
  exists inj. exact Heq.
Defined.

(** ** Cookability *)

Lemma check_step_eq inventory missing req :
  check_step inventory missing req =
  missing ++ (if missing_ingredient inventory req then [Ingredient.name req] else []).
Proof.
  unfold check_step, missing_ingredient, short_of.
  destruct (find _ inventory) as [i|].
  - destruct (_ <? _)%Z; destruct (truthy _); simpl; now rewrite ?app_nil_r.
  - destruct (truthy _); simpl; now rewrite ?app_nil_r.
Qed.

Lemma check_from inventory ings missing :
  fold_left (check_step inventory) ings missing =
  missing ++ map (fun req : RecipeIngredient.t => Ingredient.name req)
                 (List.filter (missing_ingredient inventory) ings).
Proof.
  revert missing. induction ings as [|req r IH]; intros missing; simpl.
  - now rewrite app_nil_r.
  - rewrite IH, check_step_eq.
    destruct (missing_ingredient inventory req); simpl.
    + now rewrite <- app_assoc.
    + now rewrite app_nil_r.
Qed.

(** The first match of a name and its amount depend on the names and the
    amounts of the inventory only. *)
Lemma find_amount_ext (inventory inventory' : list Ingredient.t) name :
  map (fun i => (Ingredient.name i, Ingredient.amount i)) inventory =
  map (fun i => (Ingredient.name i, Ingredient.amount i)) inventory' ->
  option_map Ingredient.amount
    (find (fun i => same_name (Ingredient.name i) name) inventory) =
  option_map Ingredient.amount
    (find (fun i => same_name (Ingredient.name i) name) inventory').
Proof.
  revert inventory'. induction inventory as [|i r IH]; intros [|i' r']; simpl;
    try discriminate; [reflexivity|].
  intros [= Hn Ha Hr]. rewrite Hn.
  destruct (same_name (Ingredient.name i') name); simpl; [now rewrite Ha|].
  now apply IH.
Qed.

(** C6.  Cookability.  [checkCookability] returns exactly the names, in
    recipe order, of the ingredients that are not optional and for which no
    inventory item matches case-insensitively or the matched item's amount
    is strictly below the required amount.  The recipe is cookable if and
    only if this list is empty, that is, every non-optional ingredient has
    a match holding at least the required amount.  The untracked flag and
    the stock status play no part: the answer depends only on the names and
    amounts in the inventory, and an untracked item whose amount is below
    the requirement leaves the ingredient missing. *)
Theorem cookability recipe inventory :
  checkCookability recipe inventory =
    map (fun req : RecipeIngredient.t => Ingredient.name req)
        (List.filter (missing_ingredient inventory) (Recipe.ingredients recipe))
  /\ (canCook recipe inventory = true <-> checkCookability recipe inventory = [])
  /\ (canCook recipe inventory = true <->
      forall req : RecipeIngredient.t,
        In req (Recipe.ingredients recipe) ->
        truthy (RecipeIngredient.optional req) = false ->
        exists i,
          find (fun i => same_name (Ingredient.name i) (Ingredient.name req)) inventory
            = Some i
          /\ (Ingredient.amount req <= Ingredient.amount i)%Z)
  /\ (forall inventory',
        map (fun i => (Ingredient.name i, Ingredient.amount i)) inventory =
        map (fun i => (Ingredient.name i, Ingredient.amount i)) inventory' ->
        checkCookability recipe inventory' = checkCookability recipe inventory)
  /\ (forall (req : RecipeIngredient.t) i,
        In req (Recipe.ingredients recipe) ->
        truthy (RecipeIngredient.optional req) = false ->
        find (fun i => same_name (Ingredient.name i) (Ingredient.name req)) inventory
          = Some i ->
        truthy (Ingredient.untrackedAmount i) = true ->
        (Ingredient.amount i < Ingredient.amount req)%Z ->
        In (Ingredient.name req) (checkCookability recipe inventory)).
Proof.
  assert (E : forall inv, checkCookability recipe inv =
    map (fun req : RecipeIngredient.t => Ingredient.name req)
        (List.filter (missing_ingredient inv) (Recipe.ingredients recipe))).
  { intros inv. unfold checkCookability. now rewrite check_from. }
  assert (C : canCook recipe inventory = true <-> checkCookability recipe inventory = []).
  { unfold canCook. rewrite Nat.eqb_eq. now destruct (checkCookability recipe inventory). }
  split; [apply E|]. split; [exact C|]. split; [|split].
  - rewrite C, E. split.
    + intros H req Hin Hopt.
      destruct (missing_ingredient inventory req) eqn:M.
      * assert (Hf : In req (List.filter (missing_ingredient inventory)
                               (Recipe.ingredients recipe))).
        { apply List.filter_In. auto. }
        apply (List.in_map (fun r : RecipeIngredient.t => Ingredient.name r)) in Hf.
        rewrite H in Hf. destruct Hf.
      * unfold missing_ingredient in M. rewrite Hopt in M. simpl in M.
        destruct (find _ inventory) as [i|]; [|discriminate M].
        exists i. split; [reflexivity|]. apply Z.ltb_ge in M. exact M.
    + intros H.
      assert (F : List.filter (missing_ingredient inventory)
                    (Recipe.ingredients recipe) = []).
      { revert H. generalize (Recipe.ingredients recipe).
        intros l. induction l as [|req r IH]; intros H; simpl; [reflexivity|].
        destruct (missing_ingredient inventory req) eqn:M.
        - unfold missing_ingredient in M. apply andb_true_iff in M as [Mo Ms].
          apply negb_true_iff in Mo.
          destruct (H req (or_introl eq_refl) Mo) as (i & Hf & Hle).
          rewrite Hf in Ms. apply Z.ltb_lt in Ms. lia.
        - apply IH. intros q Hq. apply H. now right. }
      now rewrite F.
  - intros inventory' Hext. rewrite !E. f_equal.
    apply List.filter_ext. intros req. unfold missing_ingredient. f_equal.
    pose proof (find_amount_ext _ _ (Ingredient.name req) Hext) as Hf.
    destruct (find _ inventory), (find _ inventory'); simpl in Hf;
      try discriminate Hf; [|reflexivity].
    injection Hf as ->. reflexivity.
  - intros req i Hin Hopt Hf _ Hlt. rewrite E.
    apply (List.in_map (fun r : RecipeIngredient.t => Ingredient.name r)).
    apply List.filter_In. split; [exact Hin|].
    unfold missing_ingredient. rewrite Hopt, Hf. simpl. now apply Z.ltb_lt.
Qed.

(** Avocado toast against an inventory whose avocado is untracked, in stock
    and recorded with amount zero: the avocado is reported missing. *)
Lemma cookability_untracked_avocado :
  In "Avocado"
     (checkCookability avocado_toast
        [ingredient "inv1" "Sourdough Bread" 4 "slices" "Bakery";
         Ingredient.mk "inv2" "avocado" 0 "pcs" (Some "Produce") (Some true) (Some InStock);
         ingredient "inv3" "Red Pepper Flakes" 1 "tsp" "Pantry"]).
Proof.
  destruct (cookability avocado_toast
        [ingredient "inv1" "Sourdough Bread" 4 "slices" "Bakery";
         Ingredient.mk "inv2" "avocado" 0 "pcs" (Some "Produce") (Some true) (Some InStock);
         ingredient "inv3" "Red Pepper Flakes" 1 "tsp" "Pantry"])
    as (_ & _ & _ & _ & H).
  apply (H (required "i6" "Avocado" 1 "pcs" "Produce")
           (Ingredient.mk "inv2" "avocado" 0 "pcs" (Some "Produce") (Some true) (Some InStock))).
  - right. left. reflexivity.
  - reflexivity.
  - reflexivity.
  - reflexivity.
  - reflexivity.
Defined.

(** ** Inventory add / merge *)

Lemma findIndex_first {A} (p : A -> bool) (l : list A) i x :
  l !! i = Some x -> p x = true ->
  (forall j y, (j < i)%nat -> l !! j = Some y -> p y = false) ->
  findIndex p l = Some i.
Proof.
  revert i. induction l as [|y r IH]; intros [|i]; simpl; try discriminate.
  - intros [= ->] -> _. reflexivity.
  - intros Hx Hp Hlt. rewrite (Hlt 0%nat y); [|lia|reflexivity].
    rewrite (IH i Hx Hp); [reflexivity|].
    intros j z Hj Hz. apply (Hlt (S j)); [lia|exact Hz].
Qed.

(** C5 as stated fails: submitting the form with an empty name finds no
    match in the inventory, and nothing is appended. *)
Lemma blank_name_not_appended :
  ~ (forall uuid inventory newItem,
       (forall i, In i inventory ->
          same_name (Ingredient.name i) (NewItem.name newItem) = false) ->
       inventory_after uuid inventory newItem = inventory ++ [fresh_item uuid newItem]).
Proof.
  intros H.
  specialize (H "u1" [] (NewItem.mk "" 0 "pcs" "Other" true InStock)).
  simpl in H. discriminate H. intros i [].
Qed.

(** C5, amended.  A submission whose name is blank after trimming changes
    nothing.  For every other new item: if no inventory item matches its
    name case-insensitively, it is appended with the generated id; if the
    first match is at [index], the list keeps its length and all other
    positions, and the matched item keeps id, name, unit and category while
    - an untracked incoming item marks it untracked and gives it the
      incoming stock status, leaving the amount;
    - a tracked incoming item makes a previously untracked item tracked with
      the incoming amount in place of its own;
    - a tracked incoming item adds its amount to a previously tracked
      item. *)
Theorem add_or_merge uuid inventory newItem :
  (is_blank (NewItem.name newItem) = true ->
     addItem uuid inventory newItem = None
     /\ inventory_after uuid inventory newItem = inventory)
  /\ (is_blank (NewItem.name newItem) = false ->
      (forall i, In i inventory ->
         same_name (Ingredient.name i) (NewItem.name newItem) = false) ->
      addItem uuid inventory newItem = Some (inventory ++ [fresh_item uuid newItem])
      /\ Ingredient.id (fresh_item uuid newItem) = uuid)
  /\ (is_blank (NewItem.name newItem) = false ->
      forall index existing,
        inventory !! index = Some existing ->
        same_name (Ingredient.name existing) (NewItem.name newItem) = true ->
        (forall j other, (j < index)%nat -> inventory !! j = Some other ->
           same_name (Ingredient.name other) (NewItem.name newItem) = false) ->
        exists updated merged,
          addItem uuid inventory newItem = Some updated
          /\ length updated = length inventory
          /\ updated !! index = Some merged
          /\ (forall j, j <> index -> updated !! j = inventory !! j)
          /\ Ingredient.id merged = Ingredient.id existing
          /\ Ingredient.name merged = Ingredient.name existing
          /\ Ingredient.unit merged = Ingredient.unit existing
          /\ Ingredient.category merged = Ingredient.category existing
          /\ (NewItem.untrackedAmount newItem = true ->
                Ingredient.untrackedAmount merged = Some true
                /\ Ingredient.stockStatus merged = Some (NewItem.stockStatus newItem)
                /\ Ingredient.amount merged = Ingredient.amount existing)
          /\ (NewItem.untrackedAmount newItem = false ->
              truthy (Ingredient.untrackedAmount existing) = true ->
                Ingredient.untrackedAmount merged = Some false
                /\ Ingredient.amount merged = NewItem.amount newItem
                /\ Ingredient.stockStatus merged = Ingredient.stockStatus existing)
          /\ (NewItem.untrackedAmount newItem = false ->
              truthy (Ingredient.untrackedAmount existing) = false ->
                Ingredient.amount merged =
                  (Ingredient.amount existing + NewItem.amount newItem)%Z
                /\ Ingredient.untrackedAmount merged = Ingredient.untrackedAmount existing
                /\ Ingredient.stockStatus merged = Ingredient.stockStatus existing)).
Proof.
  split; [|split].
  - intros Hb. unfold inventory_after, addItem. now rewrite Hb.
  - intros Hb Hnone. unfold addItem. rewrite Hb.
    apply findIndex_none in Hnone. now rewrite Hnone.
  - intros Hb index existing Hx Hs Hlt.
    exists (alter (merge_into newItem) index inventory), (merge_into newItem existing).
    split.
    { unfold addItem. rewrite Hb.
      now rewrite (findIndex_first _ _ _ _ Hx Hs Hlt). }
    split; [apply length_alter|].
    split.
    { rewrite list_lookup_alter. destruct (decide (index = index)); [|congruence].
      now rewrite Hx. }
    split.
    { intros j Hj. apply list_lookup_alter_ne. congruence. }
    unfold merge_into.
    destruct (NewItem.untrackedAmount newItem); simpl.
    + repeat split; intros; congruence.
    + destruct (truthy (Ingredient.untrackedAmount existing)); simpl;
        repeat split; intros; congruence.
Qed.

(** Three more avocados for an inventory that tracks two. *)
Lemma add_or_merge_avocado :
  exists updated merged,
    addItem "u1" (AppState.inventory INITIAL_DATA)
            (NewItem.mk "avocado" 3 "pcs" "Other" false InStock) = Some updated
    /\ length updated = 2%nat
    /\ updated !! 1%nat = Some merged
    /\ Ingredient.amount merged = 5%Z.
Proof.
  destruct (add_or_merge "u1" (AppState.inventory INITIAL_DATA)
              (NewItem.mk "avocado" 3 "pcs" "Other" false InStock)) as (_ & _ & H).
  assert (Hfirst : forall j other, (j < 1)%nat ->
            AppState.inventory INITIAL_DATA !! j = Some other ->
            same_name (Ingredient.name other) "avocado" = false).
  { intros [|j] other Hj; [|lia]. intros [= <-]. reflexivity. }
  destruct (H eq_refl 1%nat (ingredient "inv2" "Avocado" 2 "pcs" "Produce")
              eq_refl eq_refl Hfirst)
    as (updated & merged & Ha & Hl & Hm & _ & _ & _ & _ & _ & _ & _ & Hsum).
  exists updated, merged. repeat split; auto.
  destruct (Hsum eq_refl eq_refl) as (-> & _). reflexivity.
Defined.

(** ** Category deletion *)

Lemma reassign_moved category i : moved category i (reassign category i).
Proof.
  unfold moved, reassign, has_category.
  destruct (Ingredient.category i) as [c|] eqn:Ec.
  - destruct (String.eqb c category) eqn:E; simpl.
    + apply String.eqb_eq in E. subst c.
      destruct (decide (Some category = Some category)); [|congruence].
      repeat split; reflexivity.
    + apply String.eqb_neq in E. rewrite Ec.
      destruct (decide (Some c = Some category)); [congruence|].
      repeat split; reflexivity.
  - rewrite Ec. destruct (decide (None = Some category)); [congruence|].
    repeat split; reflexivity.
Qed.

Lemma Forall2_map_r {A B} (R : A -> B -> Prop) (f : A -> B) l :
  (forall x, R x (f x)) -> Forall2 R l (map f l).
Proof. intros H. induction l; simpl; constructor; auto. Qed.

Lemma reassign_recipe_moved category r : moved_recipe category r (reassign_recipe category r).
Proof.
  unfold moved_recipe, reassign_recipe. simpl. repeat split.
  apply Forall2_map_r. intros q. split; [reflexivity|]. apply reassign_moved.
Qed.

Lemma filter_keeps_other (category : string) (cats : list string) :
  List.NoDup cats -> (1 < length cats)%nat ->
  List.filter (fun c => negb (String.eqb c category)) cats <> [].
Proof.
  destruct cats as [|a [|b r]]; simpl; try lia.
  intros [Ha _]%List.NoDup_cons_iff _.
  destruct (String.eqb a category) eqn:Ea; simpl; [|discriminate].
  destruct (String.eqb b category) eqn:Eb; simpl; [|discriminate].
  apply String.eqb_eq in Ea, Eb. subst. exfalso. apply Ha. now left.
Qed.

(** C7 as stated fails on its last part: a vocabulary that lists the same
    category twice has more than one entry, so the deletion goes through
    and removes both, leaving no category. *)
Lemma duplicate_category_leaves_none :
  ~ (forall category state,
       AppState.categories state <> [] ->
       AppState.categories (state_after (removeCategory category state) state) <> []).
Proof.
  intros H.
  apply (H "Dairy" (AppState.mk [] [] DEFAULT_TAGS ["Dairy"; "Dairy"])).
  - discriminate.
  - reflexivity.
Qed.

(** C7, amended.  With more than one category, deleting [category] hands on
    a state whose vocabulary is the old one without [category], whose tags
    are unchanged, and whose inventory items and recipe ingredients are the
    old ones with the category moved to 'Other' where it was [category] and
    every other field unchanged.  With at most one category the handler
    warns and the state is unchanged.  Hence the vocabulary is non-empty
    after a deletion applied to a state whose vocabulary is non-empty and
    free of duplicates. *)
Theorem category_deletion category state :
  ((1 < length (AppState.categories state))%nat ->
     exists newState,
       removeCategory category state = Update newState
       /\ ~ In category (AppState.categories newState)
       /\ (forall c, In c (AppState.categories newState) <->
                     In c (AppState.categories state) /\ c <> category)
       /\ AppState.customTags newState = AppState.customTags state
       /\ Forall2 (moved category) (AppState.inventory state)
                  (AppState.inventory newState)
       /\ Forall2 (moved_recipe category) (AppState.recipes state)
                  (AppState.recipes newState))
  /\ ((length (AppState.categories state) <= 1)%nat ->
      removeCategory category state = Alert "You must have at least one category."
      /\ state_after (removeCategory category state) state = state)
  /\ (AppState.categories state <> [] ->
      List.NoDup (AppState.categories state) ->
      AppState.categories (state_after (removeCategory category state) state) <> []).
Proof.
  assert (Hf : forall c,
    In c (List.filter (fun c => negb (String.eqb c category)) (AppState.categories state))
    <-> In c (AppState.categories state) /\ c <> category).
  { intros c. rewrite List.filter_In, negb_true_iff, String.eqb_neq. reflexivity. }
  split; [|split].
  - intros Hlen. unfold removeCategory.
    destruct (length (AppState.categories state) <=? 1)%nat eqn:E;
      [apply Nat.leb_le in E; lia|].
    eexists. split; [reflexivity|]. simpl. split; [|split; [|split; [|split]]].
    + intros Hin. apply Hf in Hin. now destruct Hin.
    + exact Hf.
    + reflexivity.
    + apply Forall2_map_r, reassign_moved.
    + apply Forall2_map_r, reassign_recipe_moved.
  - intros Hlen. unfold removeCategory.
    apply Nat.leb_le in Hlen. now rewrite Hlen.
  - intros Hne Hnd. unfold removeCategory.
    destruct (length (AppState.categories state) <=? 1)%nat eqn:E; simpl.
    + exact Hne.
    + apply Nat.leb_gt in E. now apply filter_keeps_other.
Qed.

(** The scenario of the specification: deleting Dairy from the seed data
    moves the mozzarella to Other and drops Dairy from the vocabulary. *)
Lemma category_deletion_dairy :
  exists newState,
    removeCategory "Dairy" INITIAL_DATA = Update newState
    /\ ~ In "Dairy" (AppState.categories newState)
    /\ AppState.categories newState <> [].
Proof.
  destruct (category_deletion "Dairy" INITIAL_DATA) as (H & _ & Hne).
  destruct H as (newState & Hr & Hnot & _); [simpl; lia|].
  exists newState. repeat split; auto.
  assert (Hs : AppState.categories (state_after (removeCategory "Dairy" INITIAL_DATA)
                                                INITIAL_DATA) <> []).
  { apply Hne; [discriminate|].
    repeat (constructor; [simpl; intuition discriminate|]). constructor. }
  rewrite Hr in Hs. exact Hs.
Defined.

(** ** Persistence loader *)

(** C8.  The loader is total: whatever the stored document and whatever the
    parser answers, it returns a state and does not throw.  An absent or
    empty document and a parse failure give the full default state (no
    recipes, no inventory, the seed tags and the seed categories); so does a
    document that parses to [null].  When the document parses to an object,
    each of the four fields is read on its own: a field that is missing (or
    falsy) takes its default and a field that is present is kept, whatever
    the other three are; a parsed value with no such fields defaults all
    four. *)
Theorem load_total (JSON_parse : string -> completion json) data :
  exists state,
    loadFromLocalStorage JSON_parse data = Normal state
    /\ (data = None \/ data = Some "" -> state = default_state)
    /\ (forall d e, data = Some d -> JSON_parse d = Throw e -> state = default_state)
    /\ (forall d, data = Some d -> JSON_parse d = Normal JNull -> state = default_state)
    /\ (forall d fields f, data = Some d -> d <> "" ->
          JSON_parse d = Normal (JObj fields) ->
          loaded_field state f =
            match own_property fields (field_name f) with
            | Some v => if js_truthy v then v else default_of f
            | None => default_of f
            end)
    /\ (forall d parsed f, data = Some d -> d <> "" ->
          JSON_parse d = Normal parsed -> parsed <> JNull ->
          (forall fields, parsed <> JObj fields) ->
          loaded_field state f = default_of f)
    /\ default_state =
         Loaded.mk (JArr []) (JArr [])
           (JArr (map JStr ["Breakfast"; "Lunch"; "Dinner"; "Snack"; "Dessert";
                            "Vegetarian"; "Vegan"; "Quick"]))
           (JArr (map JStr ["Produce"; "Dairy"; "Meat"; "Bakery"; "Frozen"; "Pantry";
                            "Beverages"; "Household"; "Other"])).
Proof.
  destruct data as [d|]; simpl.
  - destruct (String.eqb d "") eqn:Ed.
    + apply String.eqb_eq in Ed. subst d.
      exists default_state. repeat split; auto; intros; congruence.
    + apply String.eqb_neq in Ed. unfold load_body.
      destruct (JSON_parse d) as [parsed|e] eqn:Hp; simpl.
      * destruct parsed as [|b|n|s|items|fields]; simpl;
          eexists; (split; [reflexivity|]);
          (split; [intros [H|H]; congruence|]);
          (split; [intros d' e' [= <-]; congruence|]);
          (split; [intros d' [= <-]; try congruence; reflexivity|]);
          (split; [intros d' fields' f [= <-] _ Hq; rewrite Hp in Hq;
                   try discriminate Hq; injection Hq as <-; now destruct f|]);
          (split; [|reflexivity]);
          intros d' parsed' f [= <-] _ Hq Hn Ho; rewrite Hp in Hq;
          injection Hq as <-; try congruence; now destruct f.
      * exists default_state. repeat split; auto; intros; congruence.
  - exists default_state. repeat split; auto; intros; congruence.
Qed.

(** A stored document holding an inventory and a null tag list, and no
    recipes or categories: the inventory is kept, the other three fields
    take their defaults. *)
Lemma load_total_inventory_only :
  exists state,
    loadFromLocalStorage
      (fun s => if String.eqb s "stored"
                then Normal (JObj [("inventory", JArr [JObj [("name", JStr "Flour")]]);
                                   ("customTags", JNull)])
                else Throw "SyntaxError")
      (Some "stored") = Normal state
    /\ Loaded.recipes state = JArr []
    /\ Loaded.inventory state = JArr [JObj [("name", JStr "Flour")]]
    /\ Loaded.customTags state = strings DEFAULT_TAGS
    /\ Loaded.categories state = strings DEFAULT_CATEGORIES.
Proof.
  destruct (load_total
      (fun s => if String.eqb s "stored"
                then Normal (JObj [("inventory", JArr [JObj [("name", JStr "Flour")]]);
                                   ("customTags", JNull)])
                else Throw "SyntaxError")
      (Some "stored")) as (state & Hl & _ & _ & _ & Hobj & _).
  exists state. split; [exact Hl|].
  assert (Hne : "stored" <> "") by discriminate.
  pose proof (fun f => Hobj "stored" _ f eq_refl Hne eq_refl) as Hf.
  repeat split.
  - exact (Hf Recipes).
  - exact (Hf Inventory).
  - exact (Hf CustomTags).
  - exact (Hf Categories).
Defined.

(** ** Start-up seeding *)

Lemma startup_keeps_saved saved :
  AppState.recipes saved <> [] -> initial_state saved = saved.
Proof.
  unfold initial_state. destruct (AppState.recipes saved); [congruence|reflexivity].
Qed.

(** C9.  Start-up seeding.  When the state returned by the loader has an
    empty recipe list, the application starts from the built-in
    [INITIAL_DATA] - two sample recipes, two inventory items, the seed tags
    and the seed categories - and nothing of the loaded state survives,
    whatever inventory, tags and categories it held. *)
Theorem startup_seeding saved :
  AppState.recipes saved = [] ->
  initial_state saved = INITIAL_DATA
  /\ map Recipe.name (AppState.recipes (initial_state saved))
     = ["Classic Margherita Pizza"; "Avocado Toast"]
  /\ map Ingredient.name (AppState.inventory (initial_state saved))
     = ["Sourdough Bread"; "Avocado"]
  /\ AppState.customTags (initial_state saved) = DEFAULT_TAGS
  /\ AppState.categories (initial_state saved) = DEFAULT_CATEGORIES.
Proof.
  intros H. unfold initial_state. rewrite H. simpl. repeat split.
Qed.

(** A saved state whose recipes were all deleted but which still holds an
    inventory item, a custom tag and a custom category is replaced. *)
Lemma startup_seeding_discards_inventory :
  initial_state
    (AppState.mk [] [ingredient "x1" "Flour" 500 "g" "Pantry"]
                 ["Keto"] ["Spices"; "Other"])
  = INITIAL_DATA.
Proof.
  apply (startup_seeding
           (AppState.mk [] [ingredient "x1" "Flour" 500 "g" "Pantry"]
                        ["Keto"] ["Spices"; "Other"])).
  reflexivity.
Defined.

(** * Further properties of the handlers *)

(** ** The meal plan *)

Lemma find_absent {A} (p : A -> bool) l :
  find p l = None <-> forall x, In x l -> p x = false.
Proof.
  induction l as [|y r IH]; simpl.
  - split; [intros _ x []|reflexivity].
  - destruct (p y) eqn:Hy.
    + split; [discriminate|]. intros H. rewrite (H y) in Hy; [discriminate|auto].
    + rewrite IH. split.
      * intros H x [<-|Hx]; auto.
      * intros H x Hx. apply H. auto.
Qed.

Lemma find_present {A} (p : A -> bool) l x :
  find p l = Some x -> In x l /\ p x = true.
Proof.
  induction l as [|y r IH]; simpl; [discriminate|].
  destruct (p y) eqn:Hy.
  - intros [= ->]. auto.
  - intros H. destruct (IH H). auto.
Qed.

Lemma NoDup_map_filter {A B} (f : A -> B) (p : A -> bool) l :
  List.NoDup (map f l) -> List.NoDup (map f (List.filter p l)).
Proof.
  induction l as [|x r IH]; simpl; [auto|].
  intros [Hx Hr]%List.NoDup_cons_iff.
  destruct (p x); simpl; [|auto].
  constructor; [|auto]. intros Hin. apply Hx.
  apply List.in_map_iff in Hin as (y & Hy & Hf).
  apply List.filter_In in Hf as [Hf _]. rewrite <- Hy. now apply List.in_map.
Qed.

Lemma plan_not_planned recipeId selectedRecipes :
  find (fun r => String.eqb (Plan.recipeId r) recipeId) selectedRecipes = None <->
  ~ In recipeId (map Plan.recipeId selectedRecipes).
Proof.
  rewrite find_absent, List.in_map_iff. split.
  - intros H (r & Hr & Hin). apply H in Hin. apply String.eqb_neq in Hin. auto.
  - intros H r Hin. apply String.eqb_neq. intros E. apply H. eauto.
Qed.

Lemma addToPlan_ok recipeId selectedRecipes :
  plan_ok selectedRecipes -> plan_ok (addToPlan recipeId selectedRecipes).
Proof.
  intros [Hc Hn]. unfold addToPlan.
  destruct (find _ selectedRecipes) eqn:F.
  - split.
    + apply List.Forall_map. eapply List.Forall_impl; [|exact Hc].
      intros r Hr. simpl in *. destruct (String.eqb _ _); simpl; lia.
    + rewrite List.map_map.
      erewrite List.map_ext; [exact Hn|].
      intros r. simpl. now destruct (String.eqb _ _).
  - apply plan_not_planned in F. split.
    + apply List.Forall_app. split; [exact Hc|]. repeat constructor. simpl. lia.
    + rewrite List.map_app. simpl. apply List.NoDup_app. repeat split; auto.
      * constructor; [intros []|constructor].
      * intros x Hx [<-|[]]. contradiction.
Qed.

Lemma updateCount_ok recipeId delta selectedRecipes :
  List.NoDup (map Plan.recipeId selectedRecipes) ->
  plan_ok (updateCount recipeId delta selectedRecipes).
Proof.
  intros Hn. unfold updateCount. split.
  - apply List.Forall_forall. intros r [_ Hr]%List.filter_In.
    apply Z.ltb_lt in Hr. lia.
  - apply NoDup_map_filter. rewrite List.map_map.
    erewrite List.map_ext; [exact Hn|].
    intros r. simpl. now destruct (String.eqb _ _).
Qed.

(** Whatever the user does to the plan, starting from a well-formed plan
    (the empty one, in the application), every multiplier stays at least 1
    and no recipe is planned twice. *)
Theorem plan_stays_ok actions selectedRecipes :
  plan_ok selectedRecipes ->
  plan_ok (fold_left plan_step actions selectedRecipes).
Proof.
  revert selectedRecipes.
  induction actions as [|a r IH]; intros sel Hok; simpl; [exact Hok|].
  apply IH. destruct a as [id|id delta]; simpl.
  - now apply addToPlan_ok.
  - apply updateCount_ok. now destruct Hok.
Qed.

Lemma plan_stays_ok_example :
  plan_ok (fold_left plan_step
             [AddToPlan "1"; AddToPlan "2"; AddToPlan "1"; UpdateCount "2" (-1);
              UpdateCount "1" (-5)] []).
Proof.
  apply plan_stays_ok. split; constructor.
Defined.








(** Pressing minus right after adding a recipe restores a well-formed
    plan exactly. *)
Theorem updateCount_undoes_addToPlan recipeId selectedRecipes :
  plan_ok selectedRecipes ->
  updateCount recipeId (-1) (addToPlan recipeId selectedRecipes) = selectedRecipes.
Proof.
  intros [Hc Hn]. unfold updateCount, addToPlan.
  destruct (find _ selectedRecipes) as [x|] eqn:F.
  - clear F x Hn. induction Hc as [|p r Hp Hr IH]; simpl; [reflexivity|].
    destruct (String.eqb (Plan.recipeId p) recipeId) eqn:E; simpl.
    + rewrite E. simpl.
      replace (Z.max 0 (Plan.count p + 1 + -1)) with (Plan.count p) by lia.
      destruct (0 <? Plan.count p)%Z eqn:L; [|apply Z.ltb_ge in L; lia].
      rewrite IH. now destruct p.
    + rewrite E. destruct (0 <? Plan.count p)%Z eqn:L; [|apply Z.ltb_ge in L; lia].
      now rewrite IH.
  - rewrite List.map_app, List.filter_app. simpl. rewrite String.eqb_refl. simpl.
    rewrite app_nil_r.
    assert (Hall : forall p, In p selectedRecipes ->
                     String.eqb (Plan.recipeId p) recipeId = false).
    { now apply find_absent. }
    clear F Hn. induction Hc as [|p r Hp Hr IH]; simpl; [reflexivity|].
    rewrite (Hall p (or_introl eq_refl)).
    destruct (0 <? Plan.count p)%Z eqn:L; [|apply Z.ltb_ge in L; lia].
    rewrite IH; [reflexivity|]. intros q Hq. apply Hall. now right.
Qed.

Lemma updateCount_undoes_addToPlan_example :
  updateCount "2" (-1) (addToPlan "2" [Plan.mk "1" 2]) = [Plan.mk "1" 2].
Proof.
  apply updateCount_undoes_addToPlan. split.
  - repeat constructor. simpl. lia.
  - repeat constructor. simpl. intuition.
Defined.

(** Toggling a check mark or a replenish flag flips the membership of that
    key only, and toggling twice gives the set back. *)
Theorem toggle_flips key (s : gset string) :
  (key ∈ toggle key s <-> key ∉ s)
  /\ (forall other, other <> key -> (other ∈ toggle key s <-> other ∈ s))
  /\ toggle key (toggle key s) = s.
Proof.
  assert (In1 : forall x, (x ∈ toggle key s) <->
                  (x ∈ s /\ x <> key) \/ ((key ∉ s) /\ (x ∈ s \/ x = key))).
  { intros x. unfold toggle. destruct (bool_decide (key ∈ s)) eqn:E.
    - apply bool_decide_eq_true in E.
      rewrite elem_of_difference, elem_of_singleton. tauto.
    - apply bool_decide_eq_false in E.
      rewrite elem_of_union, elem_of_singleton.
      split; [intros [H|H]; auto|]. intros [[H Hn]|[_ H]]; auto. }
  split; [|split].
  - rewrite In1. split; [|auto]. intros [[_ H]|[H _]]; [congruence|exact H].
  - intros other Hne. rewrite In1. split.
    + intros [[H _]|[_ [H|H]]]; [exact H|exact H|congruence].
    + intros H. destruct (decide (key ∈ s)); auto.
  - apply set_eq. intros x.
    assert (In2 : (x ∈ toggle key (toggle key s)) <->
                  (x ∈ toggle key s /\ x <> key)
                  \/ ((key ∉ toggle key s) /\ (x ∈ toggle key s \/ x = key))).
    { unfold toggle at 1. destruct (bool_decide (key ∈ toggle key s)) eqn:E.
      - apply bool_decide_eq_true in E.
        rewrite elem_of_difference, elem_of_singleton. tauto.
      - apply bool_decide_eq_false in E.
        rewrite elem_of_union, elem_of_singleton.
        split; [intros [H|H]; auto|]. intros [[H Hn]|[_ H]]; auto. }
    rewrite In2, !In1.
    destruct (decide (key ∈ s)) as [Hk|Hk]; destruct (decide (x = key)) as [->|Hx];
      intuition congruence.
Qed.

(** ** Pages of the recipe picker *)

Lemma page_slice {A} (l : list A) (p : nat) :
  paginatedRecipes l (Z.of_nat p) = firstn 10 (skipn (10 * p) l).
Proof.
  unfold paginatedRecipes, slice, ITEMS_PER_PAGE.
  destruct (Z.of_nat p * Z.of_nat 10 <? 0)%Z eqn:E1; [apply Z.ltb_lt in E1; lia|].
  destruct (Z.of_nat p * Z.of_nat 10 + Z.of_nat 10 <? 0)%Z eqn:E2;
    [apply Z.ltb_lt in E2; lia|].
  destruct (le_lt_dec (10 * p) (length l)) as [Hle|Hgt].
  - replace (Z.to_nat (Z.min (Z.of_nat p * Z.of_nat 10) (Z.of_nat (length l))))
      with (10 * p)%nat by lia.
    replace (Z.to_nat (Z.min (Z.of_nat p * Z.of_nat 10 + Z.of_nat 10)
                             (Z.of_nat (length l))
                       - Z.min (Z.of_nat p * Z.of_nat 10) (Z.of_nat (length l))))
      with (Nat.min 10 (length (skipn (10 * p) l))) by (rewrite List.length_skipn; lia).
    rewrite <- List.firstn_firstn. now rewrite List.firstn_all.
  - replace (Z.to_nat (Z.min (Z.of_nat p * Z.of_nat 10 + Z.of_nat 10)
                             (Z.of_nat (length l))
                       - Z.min (Z.of_nat p * Z.of_nat 10) (Z.of_nat (length l))))
      with 0%nat by lia.
    rewrite (List.skipn_all2 (n := 10 * p)) by lia. reflexivity.
Qed.

Lemma pages_prefix {A} (l : list A) (k : nat) :
  concat (map (fun p => paginatedRecipes l (Z.of_nat p)) (seq 0 k)) = firstn (10 * k) l.
Proof.
  induction k as [|k IH]; [reflexivity|].
  rewrite List.seq_S, List.map_app, List.concat_app, IH.
  cbn [map concat Nat.add]. rewrite app_nil_r, page_slice.
  replace (10 * S k)%nat with (10 * k + 10)%nat by lia.
  apply (take_take_drop l (10 * k) 10).
Qed.

Lemma totalPages_bounds {A} (l : list A) :
  (length l <= 10 * totalPages l)%nat /\ (10 * totalPages l < length l + 10)%nat.
Proof.
  unfold totalPages, ITEMS_PER_PAGE. change (10 - 1)%nat with 9%nat.
  pose proof (Nat.div_mod_eq (length l + 9) 10) as E.
  pose proof (Nat.mod_upper_bound (length l + 9) 10) as U. lia.
Qed.

(** The pages of the recipe picker partition the filtered list in order:
    concatenating pages 0 .. totalPages-1 gives the list back, every such
    page holds between 1 and 10 recipes, and pages from totalPages on are
    empty.  The two page buttons keep a valid page valid. *)
Theorem pages_partition {A} (filtered : list A) :
  concat (map (fun p => paginatedRecipes filtered (Z.of_nat p))
              (seq 0 (totalPages filtered))) = filtered
  /\ (forall p, (p < totalPages filtered)%nat ->
        (1 <= length (paginatedRecipes filtered (Z.of_nat p)) <= 10)%nat)
  /\ (forall p, (totalPages filtered <= p)%nat ->
        paginatedRecipes filtered (Z.of_nat p) = [])
  /\ (forall p, (0 <= p < Z.of_nat (totalPages filtered))%Z ->
        (0 <= previousPage p < Z.of_nat (totalPages filtered))%Z
        /\ (0 <= nextPage (totalPages filtered) p < Z.of_nat (totalPages filtered))%Z).
Proof.
  destruct (totalPages_bounds filtered) as [Hlo Hhi].
  split; [|split; [|split]].
  - rewrite pages_prefix. apply List.firstn_all2. exact Hlo.
  - intros p Hp. rewrite page_slice, List.length_firstn, List.length_skipn. lia.
  - intros p Hp. rewrite page_slice, List.skipn_all2 by lia. reflexivity.
  - intros p Hp. unfold previousPage, nextPage. lia.
Qed.

(** ** Searching *)

Lemma append_cons c r b : (String c r ++ b)%string = String c (r ++ b)%string.
Proof. reflexivity. Qed.

Lemma append_nil b : (EmptyString ++ b)%string = b.
Proof. reflexivity. Qed.

Lemma prefix_spec sub s :
  String.prefix sub s = true <-> exists b, s = (sub ++ b)%string.
Proof.
  revert s. induction sub as [|c r IH]; intros [|d t]; simpl.
  - split; [intros _; now exists EmptyString|reflexivity].
  - split; [intros _; now exists (String d t)|reflexivity].
  - split; [discriminate|]. intros (b & Hb). rewrite append_cons in Hb. discriminate Hb.
  - destruct (Ascii.ascii_dec c d) as [->|Hne].
    + rewrite IH. split; intros (b & Hb); exists b; rewrite append_cons in *; congruence.
    + split; [discriminate|]. intros (b & Hb). rewrite append_cons in Hb. congruence.
Qed.

(** [includes] holds exactly of the contiguous substrings. *)
Lemma includes_spec s sub :
  includes s sub = true <-> exists a b, s = (a ++ sub ++ b)%string.
Proof.
  induction s as [|c r IH].
  - change (includes EmptyString sub) with (String.prefix sub EmptyString || false).
    rewrite orb_false_r, prefix_spec. split.
    + intros (b & Hb). exists EmptyString, b. now rewrite append_nil.
    + intros ([|x a] & b & Hab).
      * rewrite append_nil in Hab. now exists b.
      * rewrite append_cons in Hab. discriminate Hab.
  - change (includes (String c r) sub)
      with (String.prefix sub (String c r) || includes r sub).
    rewrite orb_true_iff, IH, prefix_spec. split.
    + intros [(b & Hb)|(a & b & Hab)].
      * exists EmptyString, b. now rewrite append_nil.
      * exists (String c a), b. rewrite append_cons. now rewrite Hab.
    + intros ([|x a] & b & Hab).
      * left. rewrite append_nil in Hab. now exists b.
      * right. rewrite append_cons in Hab. injection Hab as -> Hr. now exists a, b.
Qed.

Lemma includes_empty s : includes s "" = true.
Proof. now destruct s. Qed.




(** The recipe view keeps a recipe when the term occurs in its name or its
    description (letter case ignored) and the recipe carries the active tag.
    The tag 'All' switches the tag filter off - also when the user has
    created a tag of that very name. *)
Theorem recipe_view_filter recipes searchTerm activeTag :
  (forall r, In r (filteredRecipes recipes searchTerm activeTag) <->
     In r recipes
     /\ ((exists a b, toLowerCase (Recipe.name r)
                      = (a ++ toLowerCase searchTerm ++ b)%string)
         \/ (exists a b, toLowerCase (Recipe.description r)
                         = (a ++ toLowerCase searchTerm ++ b)%string))
     /\ (activeTag = "All" \/ In activeTag (Recipe.tags r)))
  /\ filteredRecipes recipes "" "All" = recipes.
Proof.
  split.
  - intros r. unfold filteredRecipes.
    rewrite List.filter_In, andb_true_iff, !orb_true_iff, !includes_spec,
      String.eqb_eq, existsb_exists.
    assert (T : (exists x, In x (Recipe.tags r) /\ String.eqb x activeTag = true)
                <-> In activeTag (Recipe.tags r)).
    { split.
      - intros (x & Hx & E). apply String.eqb_eq in E. now subst.
      - intros H. exists activeTag. split; [exact H|apply String.eqb_refl]. }
    rewrite T. tauto.
  - unfold filteredRecipes. induction recipes as [|r rs IH]; [reflexivity|].
    cbn [List.filter]. change (toLowerCase "") with "".
    rewrite includes_empty. cbn [orb andb String.eqb Ascii.eqb Bool.eqb].
    now rewrite <- IH at 2.
Qed.

(** ** Lines shown to the user *)

Lemma displayed_eq categories shoppingList :
  displayed categories shoppingList =
  flat_map (fun category =>
              List.filter (fun i => String.eqb (Item.category i) category) shoppingList)
           categories.
Proof.
  unfold displayed, groups.
  induction categories as [|c cs IH]; [reflexivity|].
  cbn [flat_map]. rewrite flat_map_app, IH. f_equal.
  destruct (List.filter _ shoppingList) as [|x r]; simpl;
    [reflexivity|now rewrite app_nil_r].
Qed.

Lemma filter_split_perm {A} (p q : A -> bool) (l : list A) :
  (forall x, In x l -> p x = true -> q x = false) ->
  Permutation (List.filter p l ++ List.filter q l)
              (List.filter (fun x => p x || q x) l).
Proof.
  induction l as [|x r IH]; intros Hd; [reflexivity|].
  cbn [List.filter].
  assert (Hr : forall y, In y r -> p y = true -> q y = false).
  { intros y Hy. apply Hd. now right. }
  specialize (IH Hr).
  destruct (p x) eqn:Px.
  - rewrite (Hd x (or_introl eq_refl) Px). simpl. now constructor.
  - destruct (q x); simpl; [|exact IH].
    rewrite <- IH. symmetry. apply Permutation_middle.
Qed.

(** A line of the shopping list is shown (and copied) exactly when its
    category belongs to the category vocabulary: lines of any other
    category are silently left out.  Every rendered group is non-empty and
    holds the lines of its category in list order.  When the vocabulary has
    no duplicates, the lines shown are, up to order, the lines whose
    category is in the vocabulary, each shown once. *)
Theorem displayed_lines categories shoppingList :
  (forall e, In e (displayed categories shoppingList) <->
     In e shoppingList /\ In (Item.category e) categories)
  /\ (forall category items, In (category, items) (groups categories shoppingList) ->
        items <> []
        /\ In category categories
        /\ items = List.filter (fun i => String.eqb (Item.category i) category)
                               shoppingList)
  /\ (List.NoDup categories ->
      Permutation (displayed categories shoppingList)
        (List.filter (fun e => array_includes categories (Item.category e))
                     shoppingList)).
Proof.
  split; [|split].
  - intros e. rewrite displayed_eq, in_flat_map. split.
    + intros (c & Hc & [He E]%List.filter_In). apply String.eqb_eq in E.
      subst c. auto.
    + intros [He Hc]. exists (Item.category e). split; [exact Hc|].
      apply List.filter_In. split; [exact He|apply String.eqb_refl].
  - intros category items. unfold groups. rewrite in_flat_map.
    intros (c & Hc & Hin).
    destruct (List.filter (fun i => String.eqb (Item.category i) c) shoppingList)
      as [|x r] eqn:F; simpl in Hin; [destruct Hin|].
    destruct Hin as [[= <- <-]|[]]. repeat split; auto.
  - rewrite displayed_eq. intros Hn.
    induction categories as [|c cs IH]; simpl.
    + induction shoppingList; simpl; auto.
    + apply List.NoDup_cons_iff in Hn as [Hc Hcs]. rewrite (IH Hcs).
      erewrite (List.filter_ext (fun e => array_includes (c :: cs) (Item.category e))).
      * apply filter_split_perm. intros x _ E. apply String.eqb_eq in E.
        apply not_true_is_false. unfold array_includes.
        intros (y & Hy & Ey)%existsb_exists. apply String.eqb_eq in Ey.
        apply Hc. congruence.
      * intros e. unfold array_includes. simpl. now rewrite String.eqb_sym.
Qed.

(** ** What the shopping list never contains *)

(** Every line of the shopping list has a strictly positive amount. *)
Theorem shopping_list_amounts_positive selectedRecipes recipes inventory replenishItems e :
  In e (shoppingList selectedRecipes recipes inventory replenishItems) ->
  (0 < Item.amount e)%Z.
Proof.
  unfold shoppingList.
  destruct (replenish_split replenishItems inventory
              (netting (aggregate selectedRecipes recipes) inventory))
    as (inj & -> & Hinj).
  intros [He|He]%in_app_or.
  - apply netting_in in He as (d & _ & _ & Hp & He). rewrite He. exact Hp.
  - destruct (Hinj e He) as (i & _ & _ & ->). reflexivity.
Qed.

Lemma shopping_list_amounts_positive_example :
  (0 < Item.amount (Item.mk "tomato sauce" 150 "ml" "Pantry"))%Z.
Proof.
  apply (shopping_list_amounts_positive [Plan.mk "1" 2] (AppState.recipes INITIAL_DATA)
           [ingredient "inv3" "Tomato Sauce" 50 "ml" "Pantry"] ∅
           (Item.mk "tomato sauce" 150 "ml" "Pantry")).
  right. left. reflexivity.
Defined.

Lemma netting_names_distinct inventory n :
  List.NoDup (map fst n) ->
  List.NoDup (map Item.name (flat_map (net_entry inventory []) n))
  /\ forall x, In x (map Item.name (flat_map (net_entry inventory []) n)) ->
               In x (map fst n).
Proof.
  induction n as [|[k d] r IH]; simpl.
  - intros _. split; [constructor|tauto].
  - intros [Hk Hr]%List.NoDup_cons_iff. destruct (IH Hr) as [IHn IHs].
    rewrite List.map_app.
    assert (Hone : forall x, In x (map Item.name (net_entry inventory [] (k, d))) ->
                             x = k).
    { intros x (e & <- & He)%List.in_map_iff.
      apply net_entry_in in He as (_ & _ & ->). reflexivity. }
    split.
    + apply List.NoDup_app; [|exact IHn|].
      * unfold net_entry. destruct (assumed_enough _); [constructor|].
        destruct (0 <? _)%Z; simpl; [|constructor].
        apply List.NoDup_cons; [simpl; tauto|apply List.NoDup_nil].
      * intros x Hx Hy. apply Hone in Hx. subst x. apply Hk. now apply IHs.
    + intros x [Hx|Hx]%in_app_or; [left; symmetry; now apply Hone|right; now apply IHs].
Qed.

Lemma listed_false_key acc name :
  listed acc name = false -> ~ In (toLowerCase name) (map line_key acc).
Proof.
  intros L (e & He & Hin)%List.in_map_iff.
  assert (listed acc name = true); [|congruence].
  apply listed_true. exists e. split; [exact Hin|]. now apply same_name_iff.
Qed.

Lemma replenish_keys_distinct replenishItems inventory acc :
  List.NoDup (map line_key acc) ->
  List.NoDup (map line_key (replenish replenishItems inventory acc)).
Proof.
  unfold replenish. revert acc.
  induction inventory as [|item r IH]; intros acc Hn; simpl; [exact Hn|].
  apply IH. rewrite replenish_step_eq.
  destruct (wants_replenish replenishItems item); simpl; [|exact Hn].
  destruct (listed acc (Ingredient.name item)) eqn:L; simpl; [exact Hn|].
  rewrite List.map_app. simpl. apply List.NoDup_app. repeat split; auto.
  - constructor; [intros []|constructor].
  - intros x Hx [<-|[]]. revert Hx. now apply listed_false_key.
Qed.

(** No two lines of the shopping list have the same name up to letter
    case, so the name identifies a line (it is the React key and the key of
    the check marks). *)
Theorem shopping_list_names_distinct selectedRecipes recipes inventory replenishItems :
  List.NoDup (map line_key
                  (shoppingList selectedRecipes recipes inventory replenishItems)).
Proof.
  unfold shoppingList. apply replenish_keys_distinct.
  assert (E : map line_key (netting (aggregate selectedRecipes recipes) inventory)
              = map Item.name (netting (aggregate selectedRecipes recipes) inventory)).
  { apply List.map_ext_in. intros e (d & Hd & _)%netting_in.
    unfold line_key. exact (netting_key_lower _ _ _ _ Hd). }
  rewrite E. unfold netting. rewrite netting_from. simpl.
  apply netting_names_distinct, aggregate_keys.
Qed.

(** ** The optional flag *)

Lemma add_ingredients_optional count f ings n :
  fold_left (add_ingredient count)
            (map (fun q : RecipeIngredient.t => RecipeIngredient.mk q (f q)) ings) n
  = fold_left (add_ingredient count) ings n.
Proof.
  revert n. induction ings as [|q r IH]; intros n; simpl; [reflexivity|].
  rewrite IH. reflexivity.
Qed.

Lemma find_set_optional f id recipes :
  find (fun r => String.eqb (Recipe.id r) id) (map (set_optional f) recipes)
  = option_map (set_optional f) (find (fun r => String.eqb (Recipe.id r) id) recipes).
Proof.
  induction recipes as [|r rs IH]; simpl; [reflexivity|].
  destruct (String.eqb (Recipe.id r) id); [reflexivity|exact IH].
Qed.

(** The shopping list ignores the [optional] flag: whatever flags the
    recipe ingredients carry, optional ingredients are demanded like
    required ones (unlike the cookability check, which skips them). *)
Theorem shopping_list_ignores_optional f selectedRecipes recipes inventory replenishItems :
  shoppingList selectedRecipes (map (set_optional f) recipes) inventory replenishItems
  = shoppingList selectedRecipes recipes inventory replenishItems.
Proof.
  unfold shoppingList. f_equal. f_equal. unfold aggregate.
  generalize (@nil (string * Needed.t)).
  induction selectedRecipes as [|p ps IH]; intros n; simpl; [reflexivity|].
  rewrite <- IH. f_equal. unfold add_plan. rewrite find_set_optional.
  destruct (find _ recipes) as [r|]; simpl; [|reflexivity].
  apply add_ingredients_optional.
Qed.

(** ** Inventory operations *)

Lemma map_alter_same {A B} (g : A -> B) (f : A -> A) (i : nat) (l : list A) :
  (forall x, g (f x) = g x) -> map g (alter f i l) = map g l.
Proof.
  intros H. revert i. induction l as [|x r IH]; intros [|i]; simpl; try reflexivity.
  - now rewrite H.
  - f_equal. apply IH.
Qed.

Lemma map_same {A B} (g : A -> B) (f : A -> A) (l : list A) :
  (forall x, g (f x) = g x) -> map g (map f l) = map g l.
Proof. intros H. rewrite List.map_map. now apply List.map_ext. Qed.

Lemma NoDup_snoc {A} (l : list A) (x : A) :
  List.NoDup l -> ~ In x l -> List.NoDup (l ++ [x]).
Proof.
  intros Hl Hx. apply List.NoDup_app; [exact Hl| |].
  - apply List.NoDup_cons; [simpl; tauto|apply List.NoDup_nil].
  - intros y Hy [<-|[]]. contradiction.
Qed.

Lemma no_match_fresh_key inventory name :
  findIndex (fun i => same_name (Ingredient.name i) name) inventory = None ->
  ~ In (toLowerCase name) (map (fun i => toLowerCase (Ingredient.name i)) inventory).
Proof.
  intros F (i & Hi & Hin)%List.in_map_iff.
  pose proof (proj1 (findIndex_none _ _) F i Hin) as Hf. simpl in Hf.
  apply same_name_iff in Hi. congruence.
Qed.

Lemma merge_into_name newItem existing :
  Ingredient.name (merge_into newItem existing) = Ingredient.name existing.
Proof.
  unfold merge_into. destruct (NewItem.untrackedAmount newItem); [reflexivity|].
  now destruct (truthy _).
Qed.

Lemma restock_name item existing :
  Ingredient.name (restock item existing) = Ingredient.name existing.
Proof. unfold restock. now destruct (truthy _). Qed.

Lemma inventory_step_unique inventory a :
  names_unique inventory -> names_unique (inventory_step inventory a).
Proof.
  unfold names_unique. intros Hn.
  destruct a as [uuid newItem|uuid item|id|id delta|id|id status|id category]; simpl.
  - unfold inventory_after, addItem.
    destruct (is_blank _); [exact Hn|].
    destruct (findIndex _ inventory) as [idx|] eqn:F.
    + rewrite map_alter_same; [exact Hn|]. intros x. now rewrite merge_into_name.
    + rewrite List.map_app. apply NoDup_snoc; [exact Hn|].
      simpl. now apply no_match_fresh_key.
  - unfold addToInventory.
    destruct (findIndex _ inventory) as [idx|] eqn:F.
    + rewrite map_alter_same; [exact Hn|]. intros x. now rewrite restock_name.
    + rewrite List.map_app. apply NoDup_snoc; [exact Hn|].
      simpl. now apply no_match_fresh_key.
  - unfold removeItem. now apply NoDup_map_filter.
  - unfold updateAmount. rewrite map_same; [exact Hn|].
    intros x. now destruct (String.eqb _ _).
  - unfold toggleUntracked. rewrite map_same; [exact Hn|].
    intros x. now destruct (String.eqb _ _).
  - unfold setStockStatus. rewrite map_same; [exact Hn|].
    intros x. now destruct (String.eqb _ _).
  - unfold updateCategory. rewrite map_same; [exact Hn|].
    intros x. now destruct (String.eqb _ _).
Qed.

(** Whatever the user does to the inventory - adding through the form,
    adding a shopping-list line, removing, adjusting amounts, toggling
    tracking, setting a stock status or a category - an inventory whose
    names are pairwise distinct up to letter case stays so. *)
Theorem inventory_names_stay_unique actions inventory :
  names_unique inventory ->
  names_unique (fold_left inventory_step actions inventory).
Proof.
  revert inventory.
  induction actions as [|a r IH]; intros inventory Hn; simpl; [exact Hn|].
  apply IH. now apply inventory_step_unique.
Qed.

Lemma inventory_names_stay_unique_example :
  names_unique
    (fold_left inventory_step
       [AddItem "u1" (NewItem.mk "AVOCADO" 3 "pcs" "Produce" false InStock);
        AddToInventory "u2" (Item.mk "tomato sauce" 150 "ml" "Pantry");
        AddToInventory "u3" (Item.mk "Tomato Sauce" 1 "ml" "Pantry");
        SetStockStatus "inv1" OutOfStock]
       (AppState.inventory INITIAL_DATA)).
Proof.
  apply inventory_names_stay_unique.
  repeat (apply List.NoDup_cons; [simpl; intuition discriminate|]).
  apply List.NoDup_nil.
Defined.

(** In an inventory whose names are pairwise distinct up to letter case,
    every out-of-stock item is on the shopping list: either the netting
    stage already lists its name, or the list holds the item's own line
    (its name, quantity 1, its unit and category with their defaults). *)
Theorem out_of_stock_on_list selectedRecipes recipes inventory replenishItems item :
  names_unique inventory ->
  In item inventory ->
  status_is (Ingredient.stockStatus item) OutOfStock = true ->
  listed (netting (aggregate selectedRecipes recipes) inventory)
         (Ingredient.name item) = true
  \/ In (replenish_item item)
        (shoppingList selectedRecipes recipes inventory replenishItems).
Proof.
  intros Hn Hin Ho.
  destruct (listed (netting (aggregate selectedRecipes recipes) inventory)
                   (Ingredient.name item)) eqn:L; [now left|right].
  apply List.in_split in Hin as (before & after & ->).
  unfold shoppingList. apply replenish_first.
  - unfold wants_replenish. now rewrite Ho.
  - exact L.
  - intros other Hb Hs. exfalso. apply same_name_iff in Hs.
    unfold names_unique in Hn. rewrite List.map_app in Hn. simpl in Hn.
    apply List.NoDup_remove_2 in Hn. apply Hn. apply in_or_app. left.
    rewrite <- Hs.
    now apply (List.in_map (fun i => toLowerCase (Ingredient.name i))).
Qed.

Lemma out_of_stock_on_list_example :
  listed (netting (aggregate [] []) [Ingredient.mk "a" "Milk" 0 "l" (Some "Dairy") None
                                                   (Some OutOfStock)]) "Milk" = true
  \/ In (Item.mk "Milk" 1 "l" "Dairy")
        (shoppingList [] [] [Ingredient.mk "a" "Milk" 0 "l" (Some "Dairy") None
                                           (Some OutOfStock)] ∅).
Proof.
  apply (out_of_stock_on_list [] []
           [Ingredient.mk "a" "Milk" 0 "l" (Some "Dairy") None (Some OutOfStock)] ∅
           (Ingredient.mk "a" "Milk" 0 "l" (Some "Dairy") None (Some OutOfStock))).
  - apply List.NoDup_cons; [simpl; tauto|apply List.NoDup_nil].
  - left. reflexivity.
  - reflexivity.
Defined.

(** Marking an inventory item out of stock puts its name on the shopping
    list, whatever the plan and the replenish flags. *)
Theorem setStockStatus_out_of_stock_listed
    selectedRecipes recipes inventory replenishItems item :
  In item inventory ->
  listed (shoppingList selectedRecipes recipes
            (setStockStatus (Ingredient.id item) OutOfStock inventory) replenishItems)
         (Ingredient.name item) = true.
Proof.
  intros Hin. apply shoppingList_listed. right.
  exists (Ingredient.mk (Ingredient.id item) (Ingredient.name item)
            (Ingredient.amount item) (Ingredient.unit item) (Ingredient.category item)
            (Ingredient.untrackedAmount item) (Some OutOfStock)).
  repeat split.
  - unfold setStockStatus. apply List.in_map_iff. exists item.
    now rewrite String.eqb_refl.
  - apply same_name_iff. reflexivity.
Qed.

Lemma setStockStatus_out_of_stock_listed_example :
  listed (shoppingList [] (AppState.recipes INITIAL_DATA)
            (setStockStatus "inv2" OutOfStock (AppState.inventory INITIAL_DATA)) ∅)
         "Avocado" = true.
Proof.
  apply (setStockStatus_out_of_stock_listed [] (AppState.recipes INITIAL_DATA)
           (AppState.inventory INITIAL_DATA) ∅
           (ingredient "inv2" "Avocado" 2 "pcs" "Produce")).
  right. left. reflexivity.
Defined.







(** Toggling the tracking of an item flips the truth value of its
    untracked flag, gives it a stock status if it had none (in-stock) and
    keeps the one it had, and touches nothing else; toggling three times is
    the same as toggling once. *)
Theorem toggleUntracked_flips id inventory :
  Forall2 (fun i i' =>
             if String.eqb (Ingredient.id i) id then
               Ingredient.id i' = Ingredient.id i
               /\ Ingredient.name i' = Ingredient.name i
               /\ Ingredient.amount i' = Ingredient.amount i
               /\ Ingredient.unit i' = Ingredient.unit i
               /\ Ingredient.category i' = Ingredient.category i
               /\ truthy (Ingredient.untrackedAmount i')
                  = negb (truthy (Ingredient.untrackedAmount i))
               /\ Ingredient.stockStatus i' =
                    Some (match Ingredient.stockStatus i with
                          | Some s => s
                          | None => InStock
                          end)
             else i' = i)
          inventory (toggleUntracked id inventory)
  /\ toggleUntracked id (toggleUntracked id (toggleUntracked id inventory))
     = toggleUntracked id inventory.
Proof.
  split.
  - unfold toggleUntracked. apply Forall2_map_r. intros i.
    destruct (String.eqb (Ingredient.id i) id); [|reflexivity].
    simpl. repeat split. now destruct (truthy _).
  - unfold toggleUntracked. rewrite !List.map_map. apply List.map_ext.
    intros i. destruct (String.eqb (Ingredient.id i) id) eqn:E; simpl; rewrite ?E;
      simpl; rewrite ?E; [|reflexivity].
    simpl. f_equal. now destruct (truthy _).
Qed.

(** Removing the item that the form has just appended under a fresh id
    gives the inventory back. *)
Theorem removeItem_undoes_addItem uuid inventory newItem :
  is_blank (NewItem.name newItem) = false ->
  (forall i, In i inventory ->
     same_name (Ingredient.name i) (NewItem.name newItem) = false) ->
  (forall i, In i inventory -> Ingredient.id i <> uuid) ->
  removeItem uuid (inventory_after uuid inventory newItem) = inventory.
Proof.
  intros Hb Hnone Hfresh. unfold inventory_after, addItem. rewrite Hb.
  apply findIndex_none in Hnone. rewrite Hnone.
  unfold removeItem. rewrite List.filter_app. simpl. rewrite String.eqb_refl. simpl.
  rewrite app_nil_r. clear Hnone.
  induction inventory as [|x r IH]; simpl; [reflexivity|].
  destruct (String.eqb (Ingredient.id x) uuid) eqn:E.
  - apply String.eqb_eq in E. now elim (Hfresh x (or_introl eq_refl)).
  - simpl. rewrite IH; [reflexivity|]. intros i Hi. apply Hfresh. now right.
Qed.

Lemma removeItem_undoes_addItem_example :
  removeItem "u1" (inventory_after "u1" (AppState.inventory INITIAL_DATA)
                     (NewItem.mk "Flour" 500 "g" "Pantry" false InStock))
  = AppState.inventory INITIAL_DATA.
Proof.
  apply removeItem_undoes_addItem.
  - reflexivity.
  - intros i [<-|[<-|[]]]; reflexivity.
  - intros i [<-|[<-|[]]]; discriminate.
Defined.

(** ** Recipes *)

Lemma find_replace recipe recipes id :
  find (fun r => String.eqb (Recipe.id r) id)
       (map (fun r => if String.eqb (Recipe.id r) (Recipe.id recipe) then recipe else r)
            recipes)
  = if String.eqb (Recipe.id recipe) id
    then option_map (fun _ => recipe)
           (find (fun r => String.eqb (Recipe.id r) id) recipes)
    else find (fun r => String.eqb (Recipe.id r) id) recipes.
Proof.
  induction recipes as [|x r IH]; simpl.
  - now destruct (String.eqb (Recipe.id recipe) id).
  - destruct (String.eqb (Recipe.id x) (Recipe.id recipe)) eqn:E.
    + apply String.eqb_eq in E. rewrite E.
      destruct (String.eqb (Recipe.id recipe) id) eqn:E2; [reflexivity|].
      rewrite IH. reflexivity.
    + destruct (String.eqb (Recipe.id x) id) eqn:E2.
      * apply String.eqb_eq in E2. subst id. rewrite String.eqb_sym, E. reflexivity.
      * exact IH.
Qed.

Lemma find_snoc {A} (p : A -> bool) l x :
  find p (l ++ [x]) =
  match find p l with
  | Some y => Some y
  | None => if p x then Some x else None
  end.
Proof.
  induction l as [|y r IH]; simpl; [reflexivity|].
  now destruct (p y).
Qed.

Lemma saveRecipe_length recipe recipes :
  length (saveRecipe recipe recipes) =
  match find (fun r => String.eqb (Recipe.id r) (Recipe.id recipe)) recipes with
  | Some _ => length recipes
  | None => S (length recipes)
  end.
Proof.
  unfold saveRecipe. destruct (find _ recipes).
  - apply List.length_map.
  - rewrite List.length_app. simpl. lia.
Qed.

(** Saving a recipe and looking its id up gives the saved recipe; looking
    up any other id gives what it gave before; the catalogue grows by one
    when the id is new and keeps its length otherwise. *)
Theorem saveRecipe_lookup recipe recipes :
  find (fun r => String.eqb (Recipe.id r) (Recipe.id recipe)) (saveRecipe recipe recipes)
    = Some recipe
  /\ (forall id, id <> Recipe.id recipe ->
        find (fun r => String.eqb (Recipe.id r) id) (saveRecipe recipe recipes)
        = find (fun r => String.eqb (Recipe.id r) id) recipes)
  /\ length (saveRecipe recipe recipes) =
       match find (fun r => String.eqb (Recipe.id r) (Recipe.id recipe)) recipes with
       | Some _ => length recipes
       | None => S (length recipes)
       end.
Proof.
  unfold saveRecipe.
  destruct (find (fun r => String.eqb (Recipe.id r) (Recipe.id recipe)) recipes)
    as [x|] eqn:F.
  - split; [|split].
    + rewrite find_replace, String.eqb_refl, F. reflexivity.
    + intros id Hid. rewrite find_replace.
      destruct (String.eqb (Recipe.id recipe) id) eqn:E; [|reflexivity].
      apply String.eqb_eq in E. congruence.
    + apply List.length_map.
  - split; [|split].
    + rewrite find_snoc, F, String.eqb_refl. reflexivity.
    + intros id Hid. rewrite find_snoc.
      destruct (find (fun r => String.eqb (Recipe.id r) id) recipes); [reflexivity|].
      destruct (String.eqb (Recipe.id recipe) id) eqn:E; [|reflexivity].
      apply String.eqb_eq in E. congruence.
    + rewrite List.length_app. simpl. lia.
Qed.

Lemma add_plan_deleted id recipes n plan :
  add_plan (deleteRecipe true id recipes) n plan =
  if String.eqb (Plan.recipeId plan) id then n else add_plan recipes n plan.
Proof.
  unfold add_plan, deleteRecipe.
  induction recipes as [|x r IH]; simpl.
  - now destruct (String.eqb (Plan.recipeId plan) id).
  - destruct (String.eqb (Recipe.id x) id) eqn:E; simpl.
    + apply String.eqb_eq in E. rewrite IH.
      destruct (String.eqb (Plan.recipeId plan) id) eqn:E2; [reflexivity|].
      destruct (String.eqb (Recipe.id x) (Plan.recipeId plan)) eqn:E3; [|reflexivity].
      apply String.eqb_eq in E3. apply String.eqb_neq in E2. congruence.
    + destruct (String.eqb (Recipe.id x) (Plan.recipeId plan)) eqn:E3.
      * apply String.eqb_eq in E3.
        destruct (String.eqb (Plan.recipeId plan) id) eqn:E2; [|reflexivity].
        apply String.eqb_eq in E2. apply String.eqb_neq in E. congruence.
      * exact IH.
Qed.

(** A declined deletion changes nothing.  After a confirmed deletion the id
    is no longer found, every other id is found as before, and the shopping
    list of any plan is the one of the plan without the entries of the
    deleted recipe: plan entries of a missing recipe are skipped. *)
Theorem deleteRecipe_forgets id recipes :
  deleteRecipe false id recipes = recipes
  /\ find (fun r => String.eqb (Recipe.id r) id) (deleteRecipe true id recipes) = None
  /\ (forall other, other <> id ->
        find (fun r => String.eqb (Recipe.id r) other) (deleteRecipe true id recipes)
        = find (fun r => String.eqb (Recipe.id r) other) recipes)
  /\ (forall selectedRecipes inventory replenishItems,
        shoppingList selectedRecipes (deleteRecipe true id recipes) inventory
                     replenishItems
        = shoppingList
            (List.filter (fun p => negb (String.eqb (Plan.recipeId p) id)) selectedRecipes)
            recipes inventory replenishItems).
Proof.
  split; [reflexivity|]. split; [|split].
  - unfold deleteRecipe. apply find_absent.
    intros x [_ Hx]%List.filter_In. now apply negb_true_iff in Hx.
  - intros other Hne. unfold deleteRecipe.
    induction recipes as [|x r IH]; simpl; [reflexivity|].
    destruct (String.eqb (Recipe.id x) id) eqn:E; simpl.
    + apply String.eqb_eq in E.
      destruct (String.eqb (Recipe.id x) other) eqn:E2; [|exact IH].
      apply String.eqb_eq in E2. congruence.
    + now rewrite IH.
  - intros sel inventory replenishItems. unfold shoppingList. f_equal. f_equal.
    unfold aggregate. generalize (@nil (string * Needed.t)).
    induction sel as [|p ps IH]; intros n; [reflexivity|].
    cbn [fold_left List.filter]. rewrite add_plan_deleted.
    destruct (String.eqb (Plan.recipeId p) id); cbn [negb fold_left]; apply IH.
Qed.

(** Submitting the form for an existing recipe keeps the recipe's id, so
    saving replaces it in place; submitting the form opened on a recipe and
    left unchanged gives the catalogue back when ids are distinct.
    Submitting a new recipe appends it under the generated id. *)
Theorem submit_then_save uuid recipes :
  (forall recipe formData,
     In recipe recipes -> Recipe.id recipe <> "" ->
     Recipe.id (handleSubmit uuid (Some recipe) formData) = Recipe.id recipe
     /\ length (saveRecipe (handleSubmit uuid (Some recipe) formData) recipes)
        = length recipes)
  /\ (forall recipe,
        In recipe recipes -> Recipe.id recipe <> "" ->
        List.NoDup (map Recipe.id recipes) ->
        saveRecipe (handleSubmit uuid (Some recipe) (initial_form (Some recipe))) recipes
        = recipes)
  /\ (forall formData,
        (forall r, In r recipes -> Recipe.id r <> uuid) ->
        saveRecipe (handleSubmit uuid None formData) recipes
        = recipes ++ [handleSubmit uuid None formData]).
Proof.
  assert (Hid : forall recipe formData, Recipe.id recipe <> "" ->
            Recipe.id (handleSubmit uuid (Some recipe) formData) = Recipe.id recipe).
  { intros recipe formData Hne. simpl. unfold str_or.
    destruct (String.eqb (Recipe.id recipe) "") eqn:E; [|reflexivity].
    apply String.eqb_eq in E. contradiction. }
  assert (Hfound : forall recipe, In recipe recipes ->
            find (fun r => String.eqb (Recipe.id r) (Recipe.id recipe)) recipes <> None).
  { intros recipe Hin F. pose proof (proj1 (find_absent _ _) F recipe Hin) as E.
    simpl in E. rewrite String.eqb_refl in E. discriminate. }
  split; [|split].
  - intros recipe formData Hin Hne. split; [now apply Hid|].
    rewrite saveRecipe_length, (Hid recipe formData Hne).
    destruct (find _ recipes) eqn:F; [reflexivity|]. now elim (Hfound recipe Hin).
  - intros recipe Hin Hne Hnd.
    assert (E : handleSubmit uuid (Some recipe) (initial_form (Some recipe)) = recipe).
    { unfold handleSubmit. simpl. unfold str_or.
      destruct (String.eqb (Recipe.id recipe) "") eqn:E.
      - apply String.eqb_eq in E. contradiction.
      - now destruct recipe. }
    rewrite E. unfold saveRecipe.
    destruct (find _ recipes) eqn:F; [|now elim (Hfound recipe Hin)].
    clear F. rewrite <- (List.map_id recipes) at 2. apply List.map_ext_in.
    intros x Hx. destruct (String.eqb (Recipe.id x) (Recipe.id recipe)) eqn:Ex;
      [|reflexivity].
    apply String.eqb_eq in Ex.
    apply List.in_split in Hx as (l1 & l2 & ->).
    rewrite List.map_app in Hnd. simpl in Hnd.
    apply in_app_or in Hin as [Hin|[Hin|Hin]]; [|congruence|].
    + apply List.NoDup_remove_2 in Hnd. exfalso. apply Hnd.
      apply in_or_app. left. rewrite Ex. now apply List.in_map.
    + apply List.NoDup_remove_2 in Hnd. exfalso. apply Hnd.
      apply in_or_app. right. rewrite Ex. now apply List.in_map.
  - intros formData Hfresh. unfold saveRecipe. simpl.
    destruct (find _ recipes) as [x|] eqn:F; [|reflexivity].
    apply find_present in F as [Hx E]. apply String.eqb_eq in E.
    now elim (Hfresh x Hx).
Qed.

Lemma submit_then_save_example :
  saveRecipe (handleSubmit "u1" (Some avocado_toast) (initial_form (Some avocado_toast)))
             (AppState.recipes INITIAL_DATA)
  = AppState.recipes INITIAL_DATA.
Proof.
  destruct (submit_then_save "u1" (AppState.recipes INITIAL_DATA)) as (_ & H & _).
  apply H.
  - right. left. reflexivity.
  - discriminate.
  - repeat (apply List.NoDup_cons; [simpl; intuition discriminate|]).
    apply List.NoDup_nil.
Defined.

Lemma array_includes_In l x : array_includes l x = true <-> In x l.
Proof.
  unfold array_includes. rewrite existsb_exists. split.
  - intros (y & Hy & E). apply String.eqb_eq in E. now subst.
  - intros H. exists x. split; [exact H|apply String.eqb_refl].
Qed.



(** Removing the ingredient that the form has just appended under a fresh
    id gives the form data back; an ingredient with a blank name is not
    appended at all. *)
Theorem removeIngredient_undoes_addIngredient uuid (newIng : RecipeIngredient.t)
    formData :
  (is_blank (Ingredient.name newIng) = true -> addIngredient uuid newIng formData = None)
  /\ (is_blank (Ingredient.name newIng) = false ->
      (forall q : RecipeIngredient.t,
         In q (FormData.ingredients formData) -> Ingredient.id q <> uuid) ->
      exists added,
        addIngredient uuid newIng formData = Some added
        /\ length (FormData.ingredients added)
           = S (length (FormData.ingredients formData))
        /\ removeIngredient uuid added = formData).
Proof.
  unfold addIngredient. split.
  - now intros ->.
  - intros -> Hfresh. eexists. split; [reflexivity|]. simpl. split.
    + rewrite List.length_app. simpl. lia.
    + unfold removeIngredient. simpl.
      rewrite List.filter_app. simpl. rewrite String.eqb_refl. simpl.
      rewrite app_nil_r.
      assert (F : List.filter
                    (fun i : RecipeIngredient.t => negb (String.eqb (Ingredient.id i) uuid))
                    (FormData.ingredients formData) = FormData.ingredients formData).
      { induction (FormData.ingredients formData) as [|x r IH]; simpl; [reflexivity|].
        destruct (String.eqb (Ingredient.id x) uuid) eqn:E.
        - apply String.eqb_eq in E. now elim (Hfresh x (or_introl eq_refl)).
        - simpl. rewrite IH; [reflexivity|]. intros q Hq. apply Hfresh. now right. }
      rewrite F. now destruct formData.
Qed.

(** ** Settings *)

Lemma trimStart_blank s : is_blank (trimStart s) = is_blank s.
Proof.
  induction s as [|c r IH]; [reflexivity|].
  simpl. destruct (is_space c) eqn:E; simpl; [exact IH|now rewrite E].
Qed.

Lemma trimEnd_empty s : trimEnd s = "" <-> is_blank s = true.
Proof.
  induction s as [|c r IH]; simpl; [tauto|].
  rewrite andb_true_iff, <- IH.
  destruct (trimEnd r) as [|d t].
  - destruct (is_space c); split; try tauto; try discriminate.
    intros [H _]. discriminate H.
  - split; [discriminate|]. intros [_ H]. discriminate H.
Qed.

(** [!s.trim()], as the guards of [addItem] and [addIngredient] model it,
    agrees with [trim]. *)
Lemma trim_blank s : trim s = "" <-> is_blank s = true.
Proof. unfold trim. now rewrite trimEnd_empty, trimStart_blank. Qed.

Lemma settings_step_ok state a :
  vocabulary_ok state -> vocabulary_ok (settings_step state a).
Proof.
  intros (Hne & Hc & Ht). unfold vocabulary_ok.
  destruct a as [t|c|t|c|b|b]; simpl.
  - unfold addTag.
    destruct (String.eqb (trim t) "" || array_includes (AppState.customTags state) (trim t))
      eqn:E; simpl; [auto|].
    apply orb_false_iff in E as [_ E].
    repeat split; auto. apply NoDup_snoc; [exact Ht|].
    intros H. apply array_includes_In in H. congruence.
  - unfold addCategory.
    destruct (String.eqb (trim c) "" || array_includes (AppState.categories state) (trim c))
      eqn:E; simpl; [auto|].
    apply orb_false_iff in E as [_ E].
    repeat split; auto.
    + destruct (AppState.categories state); discriminate.
    + apply NoDup_snoc; [exact Hc|].
      intros H. apply array_includes_In in H. congruence.
  - repeat split; auto. apply List.NoDup_filter. exact Ht.
  - unfold removeCategory.
    destruct (length (AppState.categories state) <=? 1)%nat eqn:E; simpl; [auto|].
    apply Nat.leb_gt in E. repeat split; auto.
    + now apply filter_keeps_other.
    + now apply List.NoDup_filter.
  - destruct b; simpl; auto.
  - destruct b; simpl; [|auto]. repeat split.
    + discriminate.
    + repeat (apply List.NoDup_cons; [simpl; intuition discriminate|]).
      apply List.NoDup_nil.
    + repeat (apply List.NoDup_cons; [simpl; intuition discriminate|]).
      apply List.NoDup_nil.
Qed.

(** Whatever the user does on the settings page - adding or removing tags
    and categories, clearing the inventory, resetting - a vocabulary that has
    at least one category and lists no category and no tag twice keeps these
    three properties.  In particular the category list never becomes empty
    this way. *)
Theorem settings_keep_vocabulary actions state :
  vocabulary_ok state ->
  vocabulary_ok (fold_left settings_step actions state).
Proof.
  revert state. induction actions as [|a r IH]; intros state Hok; simpl; [exact Hok|].
  apply IH. now apply settings_step_ok.
Qed.

Lemma settings_keep_vocabulary_example :
  vocabulary_ok
    (fold_left settings_step
       [AddCategory "  Spices "; AddCategory "Spices"; RemoveCategory "Dairy";
        AddTag "Keto"; RemoveTag "Vegan"; ResetAll false]
       INITIAL_DATA).
Proof.
  apply settings_keep_vocabulary. repeat split.
  - discriminate.
  - repeat (apply List.NoDup_cons; [simpl; intuition discriminate|]).
    apply List.NoDup_nil.
  - repeat (apply List.NoDup_cons; [simpl; intuition discriminate|]).
    apply List.NoDup_nil.
Defined.


(** A factory reset that the user confirms leaves no recipes and no
    inventory and restores the seed vocabularies, whatever the state was;
    since the recipe list is then empty, the next start of the application
    brings the built-in sample data back.  A declined reset does nothing. *)
Theorem resetAll_reseeds state :
  resetAll false state = None
  /\ exists newState,
       resetAll true state = Some newState
       /\ AppState.recipes newState = []
       /\ AppState.inventory newState = []
       /\ AppState.customTags newState = DEFAULT_TAGS
       /\ AppState.categories newState = DEFAULT_CATEGORIES
       /\ initial_state newState = INITIAL_DATA.
Proof.
  split; [reflexivity|]. eexists. split; [reflexivity|]. repeat split.
Qed.

(** ** Cookability and the shopping list *)

Lemma recipe_demand_unique (q : RecipeIngredient.t) count ings :
  In q ings ->
  List.NoDup (map (fun i : RecipeIngredient.t => toLowerCase (Ingredient.name i)) ings) ->
  recipe_demand (toLowerCase (Ingredient.name q)) count ings
  = (Ingredient.amount q * count)%Z.
Proof.
  induction ings as [|x r IH]; simpl; [tauto|].
  intros Hin [Hx Hr]%List.NoDup_cons_iff. unfold ingredient_demand.
  destruct Hin as [->|Hin].
  - rewrite String.eqb_refl.
    assert (Z : recipe_demand (toLowerCase (Ingredient.name q)) count r = 0%Z).
    { clear IH Hr. induction r as [|y r IH]; simpl; [reflexivity|].
      unfold ingredient_demand.
      destruct (String.eqb (toLowerCase (Ingredient.name y))
                           (toLowerCase (Ingredient.name q))) eqn:E.
      - apply String.eqb_eq in E. exfalso. apply Hx. left. exact E.
      - rewrite IH; [reflexivity|]. intros H. apply Hx. now right. }
    rewrite Z. lia.
  - destruct (String.eqb (toLowerCase (Ingredient.name x))
                         (toLowerCase (Ingredient.name q))) eqn:E.
    + apply String.eqb_eq in E. exfalso. apply Hx. rewrite E.
      now apply (List.in_map (fun i : RecipeIngredient.t => toLowerCase (Ingredient.name i))).
    + rewrite (IH Hin Hr). lia.
Qed.

Lemma in_stock_same_name inventory name :
  in_stock inventory (toLowerCase name)
  = find (fun i => same_name (Ingredient.name i) name) inventory.
Proof. reflexivity. Qed.

(** When a recipe is cookable and its ingredient names are pairwise
    distinct up to letter case, planning it once asks the netting stage for
    nothing but optional ingredients: every netting line is the line of an
    ingredient flagged optional. *)
Theorem cookable_needs_only_optional recipe recipes inventory e :
  find (fun r => String.eqb (Recipe.id r) (Recipe.id recipe)) recipes = Some recipe ->
  List.NoDup (map (fun i : RecipeIngredient.t => toLowerCase (Ingredient.name i))
                  (Recipe.ingredients recipe)) ->
  canCook recipe inventory = true ->
  In e (netting (aggregate [Plan.mk (Recipe.id recipe) 1] recipes) inventory) ->
  exists q : RecipeIngredient.t,
    In q (Recipe.ingredients recipe)
    /\ Item.name e = toLowerCase (Ingredient.name q)
    /\ truthy (RecipeIngredient.optional q) = true.
Proof.
  intros Hf Hnd Hcook He.
  pose proof He as (d & Hd & Ha & Hp & _)%netting_in.
  destruct (aggregate_origin _ _ _ _ Hd) as (q & (p & r & Hpin & Hfr & Hq) & Hk).
  destruct Hpin as [<-|[]]. simpl in Hfr. rewrite Hf in Hfr. injection Hfr as <-.
  exists q. split; [exact Hq|]. split; [now symmetry|].
  destruct (truthy (RecipeIngredient.optional q)) eqn:O; [reflexivity|exfalso].
  assert (Hmiss : missing_ingredient inventory q = false).
  { apply not_true_is_false. intros M.
    unfold canCook in Hcook. apply Nat.eqb_eq in Hcook.
    unfold checkCookability in Hcook. rewrite check_from in Hcook.
    apply List.length_zero_iff_nil in Hcook. rewrite app_nil_l in Hcook.
    assert (Hin : In (Ingredient.name q)
              (map (fun req : RecipeIngredient.t => Ingredient.name req)
                   (List.filter (missing_ingredient inventory) (Recipe.ingredients recipe)))).
    { apply (List.in_map (fun req : RecipeIngredient.t => Ingredient.name req)).
      apply List.filter_In. auto. }
    rewrite Hcook in Hin. destruct Hin. }
  unfold missing_ingredient in Hmiss. rewrite O in Hmiss. simpl in Hmiss.
  rewrite <- Hk, in_stock_same_name in Ha, Hp.
  destruct (find _ inventory) as [i|]; [|discriminate Hmiss].
  apply Z.ltb_ge in Hmiss. simpl in Hp.
  rewrite (aggregate_amount _ _ _ _ Hd) in Hp.
  unfold demand, plan_demand in Hp. simpl in Hp. rewrite Hf in Hp.
  rewrite <- Hk, (recipe_demand_unique q 1 _ Hq Hnd) in Hp. lia.
Qed.

Lemma cookable_needs_only_optional_example :
  exists q : RecipeIngredient.t,
    In q [required "i1" "Flour" 200 "g" "Pantry";
          RecipeIngredient.mk (ingredient "i2" "Basil" 3 "leaves" "Produce") (Some true)]
    /\ Item.name (Item.mk "basil" 3 "leaves" "Produce") = toLowerCase (Ingredient.name q)
    /\ truthy (RecipeIngredient.optional q) = true.
Proof.
  apply (cookable_needs_only_optional
           (Recipe.mk "9" "Flatbread" ""
              [required "i1" "Flour" 200 "g" "Pantry";
               RecipeIngredient.mk (ingredient "i2" "Basil" 3 "leaves" "Produce")
                                   (Some true)]
              "" [] None)
           [Recipe.mk "9" "Flatbread" ""
              [required "i1" "Flour" 200 "g" "Pantry";
               RecipeIngredient.mk (ingredient "i2" "Basil" 3 "leaves" "Produce")
                                   (Some true)]
              "" [] None]
           [ingredient "inv5" "flour" 500 "g" "Pantry"]
           (Item.mk "basil" 3 "leaves" "Produce")).
  - reflexivity.
  - repeat (apply List.NoDup_cons; [simpl; intuition discriminate|]).
    apply List.NoDup_nil.
  - reflexivity.
  - left. reflexivity.
Defined.

(** ** Further compositions *)

Lemma find_map_same {A} (q : A -> bool) (f : A -> A) (l : list A) :
  (forall x, q (f x) = q x) -> find q (map f l) = option_map f (find q l).
Proof.
  intros H. induction l as [|x r IH]; simpl; [reflexivity|].
  rewrite H. now destruct (q x).
Qed.

(** Switching the inventory item matched for a demanded ingredient from
    tracked to untracked satisfies the demand, unless the item is out of
    stock: the netting stage then has no line of that name, however much is
    demanded. *)
Theorem toggleUntracked_satisfies_demand selectedRecipes recipes inventory key item e :
  in_stock inventory key = Some item ->
  truthy (Ingredient.untrackedAmount item) = false ->
  status_is (Ingredient.stockStatus item) OutOfStock = false ->
  In e (netting (aggregate selectedRecipes recipes)
                (toggleUntracked (Ingredient.id item) inventory)) ->
  Item.name e <> key.
Proof.
  intros Hs Hu Ho (d & _ & Ha & _)%netting_in Hn. rewrite Hn in Ha.
  unfold in_stock, toggleUntracked in *.
  rewrite find_map_same, Hs in Ha.
  - simpl in Ha. rewrite String.eqb_refl in Ha. simpl in Ha. rewrite Hu in Ha.
    simpl in Ha. destruct (Ingredient.stockStatus item) as [[]|]; discriminate.
  - intros x. now destruct (String.eqb (Ingredient.id x) (Ingredient.id item)).
Qed.

Lemma toggleUntracked_satisfies_demand_example :
  Item.name (Item.mk "sourdough bread" 6 "slices" "Bakery") <> "avocado".
Proof.
  apply (toggleUntracked_satisfies_demand [Plan.mk "2" 5] (AppState.recipes INITIAL_DATA)
           (AppState.inventory INITIAL_DATA) "avocado"
           (ingredient "inv2" "Avocado" 2 "pcs" "Produce")).
  - reflexivity.
  - reflexivity.
  - reflexivity.
  - left. reflexivity.
Defined.

(** After a category has been deleted, no line carrying that category is
    shown or copied any more.  Deleting 'Other' therefore hides every line
    whose category is the fallback 'Other', although the line is still in
    the shopping list. *)
Theorem deleted_category_hidden category state newState shoppingList e :
  removeCategory category state = Update newState ->
  In e (displayed (AppState.categories newState) shoppingList) ->
  Item.category e <> category.
Proof.
  unfold removeCategory.
  destruct (length (AppState.categories state) <=? 1)%nat; [discriminate|].
  intros [= <-]. simpl. rewrite displayed_eq, in_flat_map.
  intros (c & [_ Hc]%List.filter_In & [_ E]%List.filter_In) Heq.
  apply String.eqb_eq in E. apply negb_true_iff, String.eqb_neq in Hc. congruence.
Qed.

Lemma deleted_category_hidden_example :
  Item.category (Item.mk "Tomato Sauce" 1 "ml" "Pantry") <> "Dairy".
Proof.
  apply (deleted_category_hidden "Dairy" INITIAL_DATA
           (state_after (removeCategory "Dairy" INITIAL_DATA) INITIAL_DATA)
           (shoppingList [] (AppState.recipes INITIAL_DATA)
              [Ingredient.mk "x1" "Tomato Sauce" 0 "ml" (Some "Pantry") None
                             (Some OutOfStock)] ∅)).
  - reflexivity.
  - left. reflexivity.
Defined.
